(** * OpenZL JNI bindings: a model of [src/main/native/openzl_jni.c]

    The C file is a thin binding between a managed runtime (through the JNI
    function table [JNIEnv]) and the OpenZL compression library (through
    [openzl.h]).  Neither collaborator is part of the repository, so both are
    records of functions here: every external call of the C code is a field
    of [JNIEnv], [OpenZL] or [Libc], and every property below is quantified
    over all of them.  A field answers a call from its arguments, so a
    record fixes the answers of one run of one operation.  The binding
    itself is translated statement by statement into a small monad that
    logs each external call, so that the resource discipline of every
    control path can be read off the log. *)

From Stdlib Require Import ZArith List String Bool Lia.
Import ListNotations.
Local Open Scope Z_scope.

(** ** Machine integers

    The JNI types are fixed-width: [jint] and [jsize] are signed 32-bit,
    [jlong] is signed 64-bit.  [size_t] and [uintptr_t] are taken to be
    unsigned 64-bit (the file stores pointers in a [jlong]).  Values are
    mathematical integers; each C conversion is written out. *)

Definition wrap_signed (w z : Z) : Z := (z + 2 ^ (w - 1)) mod 2 ^ w - 2 ^ (w - 1).
Definition wrap_unsigned (w z : Z) : Z := z mod 2 ^ w.

Definition to_jint (z : Z) : Z := wrap_signed 32 z.
Definition to_jsize (z : Z) : Z := wrap_signed 32 z.
Definition to_int (z : Z) : Z := wrap_signed 32 z.
Definition to_jlong (z : Z) : Z := wrap_signed 64 z.
Definition to_size_t (z : Z) : Z := wrap_unsigned 64 z.
Definition to_uintptr_t (z : Z) : Z := wrap_unsigned 64 z.

Definition INT_MAX : Z := 2 ^ 31 - 1.

(** Pointers and object references are integers; [NULL] is [0]. *)
Definition NULL : Z := 0.
Definition is_null (p : Z) : bool := p =? NULL.

Definition JNI_COMMIT_AND_FREE : Z := 0.
Definition JNI_ABORT : Z := 2.

Definition bytes := list Byte.byte.

Definition size_of (b : bytes) : Z := Z.of_nat (List.length b).

(** The bytes of [data] seen through the pointer [data + off] for [len]
    bytes.  In C the window is only meaningful inside the array. *)
Definition window (data : bytes) (off len : Z) : bytes :=
  firstn (Z.to_nat len) (skipn (Z.to_nat off) data).

(** ** The OpenZL interface ([openzl.h]) *)

Definition ZL_ErrorCode := Z.

(** A report is a size or an error code.  The binding reads the size of a
    report only after [ZL_isError] has answered no, and the code of a report
    only after it has answered yes. *)
Inductive ZL_Report :=
| ZL_returnValue (v : Z)
| ZL_returnError (code : ZL_ErrorCode).

Definition ZL_isError (r : ZL_Report) : bool :=
  match r with ZL_returnValue _ => false | ZL_returnError _ => true end.

Definition ZL_validResult (r : ZL_Report) : Z :=
  match r with ZL_returnValue v => v | ZL_returnError _ => 0 end.

Definition ZL_errorCode (r : ZL_Report) : ZL_ErrorCode :=
  match r with ZL_returnValue _ => 0 | ZL_returnError c => c end.

Inductive ZL_GraphID :=
| ZL_GRAPH_ZSTD
| ZL_GRAPH_COMPRESS_GENERIC
| ZL_GRAPH_FIELD_LZ
| ZL_GRAPH_STORE
| ZL_GRAPH_FSE
| ZL_GRAPH_HUFFMAN
| ZL_GRAPH_ENTROPY
| ZL_GRAPH_BITPACK
| ZL_GRAPH_CONSTANT.

Inductive ZL_CParam :=
| ZL_CParam_formatVersion
| ZL_CParam_compressionLevel.

(** What a typed reference describes: a serial byte view, or a numeric view
    of [tr_count] elements of [tr_width] bytes, over the bytes [tr_data]. *)
Inductive ZL_Type := ZL_Type_serial | ZL_Type_numeric.

Record TypedRef := {
  tr_type : ZL_Type;
  tr_width : Z;
  tr_count : Z;
  tr_data : bytes
}.

(** The one field of [ZL_OutputInfo] the binding reads. *)
Record ZL_OutputInfo := {
  numElts : Z
}.

(** The library.  Creation functions yield the pointer they return ([NULL]
    on failure); data functions receive the bytes their pointer arguments
    designate and yield their report together with what they wrote. *)
Record OpenZL := {
  ZL_MAX_FORMAT_VERSION : Z;
  ZL_COMPRESSIONLEVEL_DEFAULT : Z;
  ZL_ErrorCode_toString : ZL_ErrorCode -> string;
  ZL_CCtx_create : Z;
  ZL_Compressor_create : Z;
  ZL_DCtx_create : Z;
  ZL_CCtx_setParameter : Z -> ZL_CParam -> Z -> ZL_Report;
  ZL_Compressor_selectStartingGraphID : Z -> ZL_GraphID -> ZL_Report;
  ZL_CCtx_refCompressor : Z -> Z -> ZL_Report;
  ZL_compressBound : Z -> Z;
  ZL_TypedRef_createSerial : bytes -> Z -> Z;
  ZL_TypedRef_createNumeric : bytes -> Z -> Z -> Z;
  ZL_CCtx_compressTypedRef : Z -> Z -> TypedRef -> ZL_Report * bytes;
  ZL_getDecompressedSize : bytes -> Z -> ZL_Report;
  ZL_decompress : Z -> bytes -> Z -> ZL_Report * bytes;
  ZL_DCtx_decompressTyped : Z -> Z -> bytes -> Z -> ZL_Report * ZL_OutputInfo * bytes;
  ZL_getCompressedSize : bytes -> Z -> ZL_Report;
  ZL_FrameInfo_create : bytes -> Z -> Z;
  ZL_FrameInfo_getDecompressedSize : Z -> Z -> ZL_Report;
  ZL_FrameInfo_getOutputType : Z -> Z -> ZL_Report
}.

(** The C allocator and the two [sizeof]s the file asks it for. *)
Record Libc := {
  malloc : Z -> Z;
  sizeof_openzl_compressor_t : Z;
  sizeof_openzl_decompressor_t : Z
}.

(** ** The managed side ([jni.h]) *)

Inductive jtype := jbyte | jint | jlong | jfloat | jdouble.

Definition sizeof (ty : jtype) : Z :=
  match ty with
  | jbyte => 1
  | jint => 4
  | jlong => 8
  | jfloat => 4
  | jdouble => 8
  end.

(** A managed primitive array: its reference ([NULL] for [null]), its length
    in elements, which is what [GetArrayLength] answers, and its storage. *)
Record jarray := {
  aref : Z;
  alen : Z;
  araw : bytes
}.

(** The byte array with reference [ref] that holds [content]. *)
Definition byte_array (ref : Z) (content : bytes) : jarray :=
  {| aref := ref; alen := size_of content; araw := content |}.

(** The entries of the JNI function table the file calls.  The
    [Get<T>ArrayElements] and [New<T>Array] families are indexed by the
    element type. *)
Record JNIEnv := {
  FindClass : string -> Z;
  GetArrayElements : jtype -> Z -> Z;
  NewArray : jtype -> Z -> Z;
  GetMethodID : Z -> string -> string -> Z;
  GetStaticMethodID : Z -> string -> string -> Z;
  CallStaticObjectMethod : Z -> Z -> Z -> Z;
  NewStringUTF : string -> Z;
  NewObject : Z -> Z -> Z
}.

(** ** The log of external calls *)

(** Which parameter of the operation a pinned region belongs to. *)
Inductive role := Input | Output.

Inductive objkind := KCCtx | KCompressor | KDCtx | KTypedRef | KFrameInfo.

Inductive zl_call :=
| SetParameter (cctx : Z) (param : ZL_CParam) (value : Z)
| SelectStartingGraphID (compressor : Z) (g : ZL_GraphID)
| RefCompressor (cctx compressor : Z)
| CompressTypedRef (cctx dst dstCapacity tref : Z)
| GetDecompressedSize (src srcSize : Z)
| Decompress (dst dstCapacity src srcSize : Z)
| DecompressTyped (dctx dst dstCapacity src srcSize : Z)
| GetCompressedSize (src srcSize : Z)
| FrameInfoGetDecompressedSize (fi outputID : Z)
| FrameInfoGetOutputType (fi outputID : Z).

Inductive event :=
| Malloc (size p : Z)
| Free (p : Z)
| Create (k : objkind) (p : Z)
| Destroy (k : objkind) (p : Z)
| GetElements (r : role) (array p : Z)
| ReleaseElements (r : role) (array p mode : Z)
| Native (c : zl_call)
| ThrowNew (cls msg : string)
| NewArrayCall (ty : jtype) (len ref : Z)
| SetArrayRegion (ty : jtype) (ref start len buf : Z)
| Lookup (name : string) (res : Z)
| FromId (id res : Z)
| NewStringUTFCall (s : string) (res : Z)
| NewObjectCall (res : Z).

(** ** Native memory holding the handle records *)

Record openzl_compressor_t := {
  c_ctx : Z;
  c_compressor : Z;
  c_graph_id : ZL_GraphID
}.

Record openzl_decompressor_t := {
  d_ctx : Z
}.

Record state := {
  log : list event;
  compressors : Z -> openzl_compressor_t;
  decompressors : Z -> openzl_decompressor_t
}.

Definition start (cm : Z -> openzl_compressor_t) (dm : Z -> openzl_decompressor_t) : state :=
  {| log := []; compressors := cm; decompressors := dm |}.

(** ** A monad for C function bodies

    A computation threads the state and either goes on with a value or has
    executed a [return]. *)

Inductive flow (R A : Type) :=
| Go (a : A)
| Returned (r : R).
Arguments Go {R A} a.
Arguments Returned {R A} r.

Definition M (R A : Type) : Type := state -> flow R A * state.

Definition pure {R A} (a : A) : M R A := fun s => (Go a, s).

Definition bind {R A B} (m : M R A) (k : A -> M R B) : M R B :=
  fun s => match m s with
           | (Go a, s') => k a s'
           | (Returned r, s') => (Returned r, s')
           end.

Definition Return {R A} (r : R) : M R A := fun s => (Returned r, s).

Definition emit {R} (e : event) : M R unit :=
  fun s => (Go tt, {| log := log s ++ [e];
                      compressors := compressors s;
                      decompressors := decompressors s |}).

Definition when {R} (c : bool) (body : M R unit) : M R unit :=
  if c then body else pure tt.

Declare Scope c_scope.
Delimit Scope c_scope with C.
Notation "x <- m ;; k" := (bind m (fun x => k))
  (at level 100, m at next level, right associativity) : c_scope.
Notation "m ;; k" := (bind m (fun _ => k))
  (at level 100, right associativity) : c_scope.
Local Open Scope c_scope.

Record result (R : Type) := {
  value : R;
  final : state
}.
Arguments value {R} r.
Arguments final {R} r.

Definition run {R} (m : M R R) (s : state) : result R :=
  match m s with
  | (Go r, s') => {| value := r; final := s' |}
  | (Returned r, s') => {| value := r; final := s' |}
  end.

Definition events {R} (r : result R) : list event := log (final r).

(** ** The introspection result *)

(** The object [NewObject] builds from the constructor arguments
    [(decompressed_size, compressed_size, graph, data_type)]; [ci_graph] is
    the reference [CompressionGraph.fromId] returned and [ci_graph_id] the
    identifier it was called on. *)
Record CompressionInfo := {
  ci_ref : Z;
  ci_decompressed_size : Z;
  ci_compressed_size : Z;
  ci_graph_id : Z;
  ci_graph : Z;
  ci_data_type : string
}.

(** Modelled from the spec: the managed method [CompressionGraph.fromId],
    which is Java code of the repository that is not among the sources.  The
    spec names the two tags the introspector can yield: the default serial
    tag, which is the tag of identifier 0, and the generic numeric tag,
    which is the tag of identifier 1. *)
Inductive GraphTag :=
| DEFAULT_SERIAL
| GENERIC_NUMERIC
| OTHER_GRAPH (id : Z).

Definition fromId (id : Z) : GraphTag :=
  match id with
  | 0 => DEFAULT_SERIAL
  | 1 => GENERIC_NUMERIC
  | _ => OTHER_GRAPH id
  end.

(** ** The binding *)

Section Binding.

Variable env : JNIEnv.
Variable zl : OpenZL.
Variable libc : Libc.

(** *** Logged external calls *)

(** [malloc(size)] *)
Definition call_malloc {R} (size : Z) : M R Z :=
  let p := malloc libc size in
  emit (Malloc size p) ;; pure p.

(** [free(p)].  The call is logged and the memory maps are left alone:
    what a freed block holds afterwards is not modelled, so nothing may be
    concluded from a read through a freed pointer.  No entry point reads a
    block after freeing it, and a statement about a handle used after its
    destroy has to range over every content of the record. *)
Definition free {R} (p : Z) : M R unit := emit (Free p).

(** [ZL_<k>_create...()], which returned [p] *)
Definition create {R} (k : objkind) (p : Z) : M R Z :=
  emit (Create k p) ;; pure p.

(** [ZL_<k>_free(p)] *)
Definition destroy {R} (k : objkind) (p : Z) : M R unit := emit (Destroy k p).

(** Any other library call, which returned [res] *)
Definition native {R A} (c : zl_call) (res : A) : M R A :=
  emit (Native c) ;; pure res.

(** [Get<ty>ArrayElements(env, array, NULL)] *)
Definition GetArrayElements_ {R} (r : role) (ty : jtype) (array : jarray) : M R Z :=
  let p := GetArrayElements env ty (aref array) in
  emit (GetElements r (aref array) p) ;; pure p.

(** [Release<ty>ArrayElements(env, array, elems, mode)] *)
Definition ReleaseArrayElements_ {R} (r : role) (array : jarray) (elems mode : Z) : M R unit :=
  emit (ReleaseElements r (aref array) elems mode).

(** [New<ty>Array(env, len)] *)
Definition NewArray_ {R} (ty : jtype) (len : Z) : M R Z :=
  let a := NewArray env ty len in
  emit (NewArrayCall ty len a) ;; pure a.

(** [compressor->field = v] and the reads of [*compressor].  A read goes
    through whatever pointer the handle holds: the binding never checks a
    nonzero handle. *)
Definition store_compressor {R} (p : Z) (f : openzl_compressor_t -> openzl_compressor_t) : M R unit :=
  fun s => (Go tt, {| log := log s;
                      compressors := fun q => if q =? p then f (compressors s q) else compressors s q;
                      decompressors := decompressors s |}).

Definition load_compressor {R} (p : Z) : M R openzl_compressor_t :=
  fun s => (Go (compressors s p), s).

Definition store_decompressor {R} (p : Z) (f : openzl_decompressor_t -> openzl_decompressor_t) : M R unit :=
  fun s => (Go tt, {| log := log s;
                      compressors := compressors s;
                      decompressors := fun q => if q =? p then f (decompressors s q) else decompressors s q |}).

Definition load_decompressor {R} (p : Z) : M R openzl_decompressor_t :=
  fun s => (Go (decompressors s p), s).

Definition set_ctx (v : Z) (c : openzl_compressor_t) : openzl_compressor_t :=
  {| c_ctx := v; c_compressor := c_compressor c; c_graph_id := c_graph_id c |}.
Definition set_compressor (v : Z) (c : openzl_compressor_t) : openzl_compressor_t :=
  {| c_ctx := c_ctx c; c_compressor := v; c_graph_id := c_graph_id c |}.
Definition set_graph_id (v : ZL_GraphID) (c : openzl_compressor_t) : openzl_compressor_t :=
  {| c_ctx := c_ctx c; c_compressor := c_compressor c; c_graph_id := v |}.
Definition set_dctx (v : Z) (d : openzl_decompressor_t) : openzl_decompressor_t :=
  {| d_ctx := v |}.

(** *** Raising managed exceptions *)

Definition OpenZLException : string := "net/openzl/OpenZLException".
Definition OutOfMemoryError : string := "java/lang/OutOfMemoryError".
Definition IllegalArgumentException : string := "java/lang/IllegalArgumentException".

Definition throw_exception {R} (exception_class message : string) : M R unit :=
  let exc_class := FindClass env exception_class in
  when (negb (is_null exc_class)) (emit (ThrowNew exception_class message)).

Definition throw_openzl_exception {R} (message : string) : M R unit :=
  throw_exception (R := R) OpenZLException message.

Definition throw_out_of_memory {R} : M R unit :=
  throw_exception (R := R) OutOfMemoryError "Failed to allocate memory".

Definition throw_openzl_report_error {R} (report : ZL_Report) : M R unit :=
  when (ZL_isError report)
    (let error_code := ZL_errorCode report in
     let error_message := ZL_ErrorCode_toString zl error_code in
     throw_openzl_exception error_message).

(** *** Handles *)

(** The [switch (graph_id)] of [createCompressor]. *)
Definition selected_graph (graph_id : Z) : ZL_GraphID :=
  match graph_id with
  | 0 => ZL_GRAPH_ZSTD
  | 1 => ZL_GRAPH_COMPRESS_GENERIC
  | 2 => ZL_GRAPH_FIELD_LZ
  | 3 => ZL_GRAPH_STORE
  | 4 => ZL_GRAPH_FSE
  | 5 => ZL_GRAPH_HUFFMAN
  | 6 => ZL_GRAPH_ENTROPY
  | 7 => ZL_GRAPH_BITPACK
  | 8 => ZL_GRAPH_CONSTANT
  | 9 => ZL_GRAPH_COMPRESS_GENERIC
  | _ => ZL_GRAPH_ZSTD
  end.

Definition Java_net_openzl_OpenZLJNI_createCompressor (graph_id : Z) : M Z Z :=
  compressor <- call_malloc (sizeof_openzl_compressor_t libc) ;;
  when (is_null compressor)
    (throw_out_of_memory ;;
     Return 0) ;;
  ctx <- create KCCtx (ZL_CCtx_create zl) ;;
  store_compressor compressor (set_ctx ctx) ;;
  when (is_null ctx)
    (free compressor ;;
     throw_openzl_exception "Failed to create compression context" ;;
     Return 0) ;;
  cmp <- create KCompressor (ZL_Compressor_create zl) ;;
  store_compressor compressor (set_compressor cmp) ;;
  when (is_null cmp)
    (destroy KCCtx ctx ;;
     free compressor ;;
     throw_openzl_exception "Failed to create compressor object" ;;
     Return 0) ;;
  let selected := selected_graph graph_id in
  store_compressor compressor (set_graph_id selected) ;;
  result <- native (SetParameter ctx ZL_CParam_formatVersion (ZL_MAX_FORMAT_VERSION zl))
              (ZL_CCtx_setParameter zl ctx ZL_CParam_formatVersion (ZL_MAX_FORMAT_VERSION zl)) ;;
  when (ZL_isError result)
    (destroy KCompressor cmp ;;
     destroy KCCtx ctx ;;
     free compressor ;;
     throw_openzl_report_error result ;;
     Return 0) ;;
  result <- native (SetParameter ctx ZL_CParam_compressionLevel (ZL_COMPRESSIONLEVEL_DEFAULT zl))
              (ZL_CCtx_setParameter zl ctx ZL_CParam_compressionLevel (ZL_COMPRESSIONLEVEL_DEFAULT zl)) ;;
  when (ZL_isError result)
    (destroy KCompressor cmp ;;
     destroy KCCtx ctx ;;
     free compressor ;;
     throw_openzl_report_error result ;;
     Return 0) ;;
  result <- native (SelectStartingGraphID cmp selected)
              (ZL_Compressor_selectStartingGraphID zl cmp selected) ;;
  when (ZL_isError result)
    (destroy KCompressor cmp ;;
     destroy KCCtx ctx ;;
     free compressor ;;
     throw_openzl_report_error result ;;
     Return 0) ;;
  result <- native (RefCompressor ctx cmp) (ZL_CCtx_refCompressor zl ctx cmp) ;;
  when (ZL_isError result)
    (destroy KCompressor cmp ;;
     destroy KCCtx ctx ;;
     free compressor ;;
     throw_openzl_report_error result ;;
     Return 0) ;;
  Return (to_jlong (to_uintptr_t compressor)).

Definition Java_net_openzl_OpenZLJNI_destroyCompressor (compressor_ptr : Z) : M unit unit :=
  when (compressor_ptr =? 0) (Return tt) ;;
  let compressor := to_uintptr_t compressor_ptr in
  c <- load_compressor compressor ;;
  when (negb (is_null (c_compressor c))) (destroy KCompressor (c_compressor c)) ;;
  when (negb (is_null (c_ctx c))) (destroy KCCtx (c_ctx c)) ;;
  free compressor ;;
  Return tt.

Definition Java_net_openzl_OpenZLJNI_createDecompressor : M Z Z :=
  decompressor <- call_malloc (sizeof_openzl_decompressor_t libc) ;;
  when (is_null decompressor)
    (throw_out_of_memory ;;
     Return 0) ;;
  ctx <- create KDCtx (ZL_DCtx_create zl) ;;
  store_decompressor decompressor (set_dctx ctx) ;;
  when (is_null ctx)
    (free decompressor ;;
     throw_openzl_exception "Failed to create decompression context" ;;
     Return 0) ;;
  Return (to_jlong (to_uintptr_t decompressor)).

Definition Java_net_openzl_OpenZLJNI_destroyDecompressor (decompressor_ptr : Z) : M unit unit :=
  when (decompressor_ptr =? 0) (Return tt) ;;
  let decompressor := to_uintptr_t decompressor_ptr in
  d <- load_decompressor decompressor ;;
  when (negb (is_null (d_ctx d))) (destroy KDCtx (d_ctx d)) ;;
  free decompressor ;;
  Return tt.

(** *** Compression *)

Definition serial_ref (data : bytes) (size : Z) : TypedRef :=
  {| tr_type := ZL_Type_serial; tr_width := 1; tr_count := size; tr_data := data |}.

Definition numeric_ref (data : bytes) (width count : Z) : TypedRef :=
  {| tr_type := ZL_Type_numeric; tr_width := width; tr_count := count; tr_data := data |}.

(** The managed array that [New<ty>Array(len)] returned as [ref], after
    [Set<ty>ArrayRegion(ref, 0, len, buf)] copied [len] elements out of the
    native buffer whose content is [buf]. *)
Definition filled_array (ty : jtype) (ref len : Z) (buf : bytes) : jarray :=
  {| aref := ref; alen := len; araw := firstn (Z.to_nat (len * sizeof ty)) buf |}.

Definition Java_net_openzl_OpenZLJNI_compressSerial
    (compressor_ptr : Z) (src : jarray) (src_off src_len : Z)
  : M (option jarray) (option jarray) :=
  when (compressor_ptr =? 0)
    (throw_openzl_exception "[Error OpenZL JNI] Invalid compressor" ;;
     Return None) ;;
  let compressor := to_uintptr_t compressor_ptr in
  src_data <- GetArrayElements_ Input jbyte src ;;
  when (is_null src_data)
    (throw_out_of_memory ;;
     Return None) ;;
  let max_compressed_size := ZL_compressBound zl (to_size_t src_len) in
  compressed_data <- call_malloc max_compressed_size ;;
  when (is_null compressed_data)
    (ReleaseArrayElements_ Input src src_data JNI_ABORT ;;
     throw_out_of_memory ;;
     Return None) ;;
  let view := window (araw src) src_off src_len in
  typed_ref <- create KTypedRef (ZL_TypedRef_createSerial zl view (to_size_t src_len)) ;;
  when (is_null typed_ref)
    (ReleaseArrayElements_ Input src src_data JNI_ABORT ;;
     free compressed_data ;;
     throw_openzl_exception "[Error OpenZL JNI] Failed to create typed reference for serial data" ;;
     Return None) ;;
  c <- load_compressor compressor ;;
  out <- native (CompressTypedRef (c_ctx c) compressed_data max_compressed_size typed_ref)
           (ZL_CCtx_compressTypedRef zl (c_ctx c) max_compressed_size
              (serial_ref view (to_size_t src_len))) ;;
  let compress_report := fst out in
  destroy KTypedRef typed_ref ;;
  ReleaseArrayElements_ Input src src_data JNI_ABORT ;;
  when (ZL_isError compress_report)
    (free compressed_data ;;
     throw_openzl_report_error compress_report ;;
     Return None) ;;
  let compressed_size := ZL_validResult compress_report in
  result <- NewArray_ jbyte (to_jsize compressed_size) ;;
  when (is_null result)
    (free compressed_data ;;
     throw_out_of_memory ;;
     Return None) ;;
  emit (SetArrayRegion jbyte result 0 (to_jsize compressed_size) compressed_data) ;;
  free compressed_data ;;
  Return (Some (filled_array jbyte result (to_jsize compressed_size) (snd out))).

Definition Java_net_openzl_OpenZLJNI_compressSerialToBuffer
    (compressor_ptr : Z) (src : jarray) (src_off src_len : Z)
    (dest : jarray) (dest_off max_dest_len : Z)
  : M Z Z :=
  when (compressor_ptr =? 0)
    (throw_openzl_exception "[Error OpenZL JNI] Invalid compressor" ;;
     Return (-1)) ;;
  let compressor := to_uintptr_t compressor_ptr in
  src_data <- GetArrayElements_ Input jbyte src ;;
  dest_data <- GetArrayElements_ Output jbyte dest ;;
  when (is_null src_data || is_null dest_data)
    (when (negb (is_null src_data)) (ReleaseArrayElements_ Input src src_data JNI_ABORT) ;;
     when (negb (is_null dest_data)) (ReleaseArrayElements_ Output dest dest_data JNI_ABORT) ;;
     throw_out_of_memory ;;
     Return (-1)) ;;
  let view := window (araw src) src_off src_len in
  typed_ref <- create KTypedRef (ZL_TypedRef_createSerial zl view (to_size_t src_len)) ;;
  when (is_null typed_ref)
    (ReleaseArrayElements_ Input src src_data JNI_ABORT ;;
     ReleaseArrayElements_ Output dest dest_data JNI_ABORT ;;
     throw_openzl_exception "[Error OpenZL JNI] Failed to create typed reference" ;;
     Return (-1)) ;;
  c <- load_compressor compressor ;;
  out <- native (CompressTypedRef (c_ctx c) (dest_data + dest_off) (to_size_t max_dest_len) typed_ref)
           (ZL_CCtx_compressTypedRef zl (c_ctx c) (to_size_t max_dest_len)
              (serial_ref view (to_size_t src_len))) ;;
  let compress_report := fst out in
  destroy KTypedRef typed_ref ;;
  ReleaseArrayElements_ Input src src_data JNI_ABORT ;;
  ReleaseArrayElements_ Output dest dest_data 0 ;;
  when (ZL_isError compress_report)
    (throw_openzl_exception (ZL_ErrorCode_toString zl (ZL_errorCode compress_report)) ;;
     Return (-1)) ;;
  let compressed_size := ZL_validResult compress_report in
  Return (to_jint compressed_size).

(** [compressNumericInts], [compressNumericLongs], [compressNumericFloats]
    and [compressNumericDoubles] are one body up to the element type [ty]
    and the text of the invalid-handle message. *)
Definition compressNumeric (ty : jtype) (invalid_message : string)
    (compressor_ptr : Z) (data : jarray)
  : M (option jarray) (option jarray) :=
  when (compressor_ptr =? 0)
    (throw_openzl_exception invalid_message ;;
     Return None) ;;
  let compressor := to_uintptr_t compressor_ptr in
  let array_len := alen data in
  array_data <- GetArrayElements_ Input ty data ;;
  when (is_null array_data)
    (throw_out_of_memory ;;
     Return None) ;;
  let input_size := to_size_t (to_size_t array_len * sizeof ty) in
  let max_compressed_size := ZL_compressBound zl input_size in
  compressed_data <- call_malloc max_compressed_size ;;
  when (is_null compressed_data)
    (ReleaseArrayElements_ Input data array_data JNI_ABORT ;;
     throw_out_of_memory ;;
     Return None) ;;
  typed_ref <- create KTypedRef
                 (ZL_TypedRef_createNumeric zl (araw data) (sizeof ty) (to_size_t array_len)) ;;
  when (is_null typed_ref)
    (ReleaseArrayElements_ Input data array_data JNI_ABORT ;;
     free compressed_data ;;
     throw_openzl_exception "[Error OpenZL JNI] Failed to create typed reference for numeric data" ;;
     Return None) ;;
  c <- load_compressor compressor ;;
  out <- native (CompressTypedRef (c_ctx c) compressed_data max_compressed_size typed_ref)
           (ZL_CCtx_compressTypedRef zl (c_ctx c) max_compressed_size
              (numeric_ref (araw data) (sizeof ty) (to_size_t array_len))) ;;
  let compress_report := fst out in
  destroy KTypedRef typed_ref ;;
  ReleaseArrayElements_ Input data array_data JNI_ABORT ;;
  when (ZL_isError compress_report)
    (free compressed_data ;;
     throw_openzl_report_error compress_report ;;
     Return None) ;;
  let compressed_size := ZL_validResult compress_report in
  result <- NewArray_ jbyte (to_jsize compressed_size) ;;
  when (is_null result)
    (free compressed_data ;;
     throw_out_of_memory ;;
     Return None) ;;
  emit (SetArrayRegion jbyte result 0 (to_jsize compressed_size) compressed_data) ;;
  free compressed_data ;;
  Return (Some (filled_array jbyte result (to_jsize compressed_size) (snd out))).

Definition Java_net_openzl_OpenZLJNI_compressNumericInts :=
  compressNumeric jint "[Error OpenZL JNI] Invalid compressor".
Definition Java_net_openzl_OpenZLJNI_compressNumericLongs :=
  compressNumeric jlong "[Error OpenZL JNI]  Invalid compressor".
Definition Java_net_openzl_OpenZLJNI_compressNumericFloats :=
  compressNumeric jfloat "[Error OpenZL JNI] Invalid compressor".
Definition Java_net_openzl_OpenZLJNI_compressNumericDoubles :=
  compressNumeric jdouble "[Error OpenZL JNI] Invalid compressor".

(** *** Decompression *)

Definition Java_net_openzl_OpenZLJNI_decompressSerial
    (decompressor_ptr : Z) (src : jarray) (src_off src_len : Z)
  : M (option jarray) (option jarray) :=
  when (decompressor_ptr =? 0)
    (throw_openzl_exception "[Error OpenZL JNI] Invalid decompressor" ;;
     Return None) ;;
  src_data <- GetArrayElements_ Input jbyte src ;;
  when (is_null src_data)
    (throw_out_of_memory ;;
     Return None) ;;
  let view := window (araw src) src_off src_len in
  size_report <- native (GetDecompressedSize (src_data + src_off) (to_size_t src_len))
                   (ZL_getDecompressedSize zl view (to_size_t src_len)) ;;
  when (ZL_isError size_report)
    (ReleaseArrayElements_ Input src src_data JNI_ABORT ;;
     throw_openzl_report_error size_report ;;
     Return None) ;;
  let decompressed_size := ZL_validResult size_report in
  decompressed_data <- call_malloc decompressed_size ;;
  when (is_null decompressed_data)
    (ReleaseArrayElements_ Input src src_data JNI_ABORT ;;
     throw_out_of_memory ;;
     Return None) ;;
  out <- native (Decompress decompressed_data decompressed_size
                   (src_data + src_off) (to_size_t src_len))
           (ZL_decompress zl decompressed_size view (to_size_t src_len)) ;;
  let decompress_report := fst out in
  ReleaseArrayElements_ Input src src_data JNI_ABORT ;;
  when (ZL_isError decompress_report)
    (free decompressed_data ;;
     throw_openzl_report_error decompress_report ;;
     Return None) ;;
  let result_size := ZL_validResult decompress_report in
  result <- NewArray_ jbyte (to_jsize result_size) ;;
  when (is_null result)
    (free decompressed_data ;;
     throw_out_of_memory ;;
     Return None) ;;
  emit (SetArrayRegion jbyte result 0 (to_jsize result_size) decompressed_data) ;;
  free decompressed_data ;;
  Return (Some (filled_array jbyte result (to_jsize result_size) (snd out))).

Definition Java_net_openzl_OpenZLJNI_decompressSerialToBuffer
    (decompressor_ptr : Z) (src : jarray) (src_off src_len : Z)
    (dest : jarray) (dest_off max_dest_len : Z)
  : M Z Z :=
  when (decompressor_ptr =? 0)
    (throw_openzl_exception "[Error OpenZL JNI] Invalid decompressor" ;;
     Return (-1)) ;;
  src_data <- GetArrayElements_ Input jbyte src ;;
  when (is_null src_data)
    (throw_out_of_memory ;;
     Return (-1)) ;;
  dest_data <- GetArrayElements_ Output jbyte dest ;;
  when (is_null dest_data)
    (ReleaseArrayElements_ Input src src_data JNI_ABORT ;;
     throw_out_of_memory ;;
     Return (-1)) ;;
  let view := window (araw src) src_off src_len in
  out <- native (Decompress (dest_data + dest_off) (to_size_t max_dest_len)
                   (src_data + src_off) (to_size_t src_len))
           (ZL_decompress zl (to_size_t max_dest_len) view (to_size_t src_len)) ;;
  let decompress_report := fst out in
  ReleaseArrayElements_ Input src src_data JNI_ABORT ;;
  ReleaseArrayElements_ Output dest dest_data 0 ;;
  when (ZL_isError decompress_report)
    (throw_openzl_exception (ZL_ErrorCode_toString zl (ZL_errorCode decompress_report)) ;;
     Return (-1)) ;;
  let decompressed_size := ZL_validResult decompress_report in
  Return (to_jint decompressed_size).

(** [decompressNumericInts], [decompressNumericLongs],
    [decompressNumericFloats] and [decompressNumericDoubles] are one body up
    to the element type [ty] of the managed result. *)
Definition decompressNumeric (ty : jtype) (decompressor_ptr : Z) (src : jarray)
  : M (option jarray) (option jarray) :=
  when (decompressor_ptr =? 0)
    (throw_openzl_exception "[Error OpenZL JNI] Invalid decompressor" ;;
     Return None) ;;
  let decompressor := to_uintptr_t decompressor_ptr in
  let src_len := alen src in
  src_data <- GetArrayElements_ Input jbyte src ;;
  when (is_null src_data)
    (throw_out_of_memory ;;
     Return None) ;;
  size_report <- native (GetDecompressedSize src_data (to_size_t src_len))
                   (ZL_getDecompressedSize zl (araw src) (to_size_t src_len)) ;;
  when (ZL_isError size_report)
    (ReleaseArrayElements_ Input src src_data JNI_ABORT ;;
     throw_openzl_exception (ZL_ErrorCode_toString zl (ZL_errorCode size_report)) ;;
     Return None) ;;
  let decompressed_size := ZL_validResult size_report in
  decompressed_data <- call_malloc decompressed_size ;;
  when (is_null decompressed_data)
    (ReleaseArrayElements_ Input src src_data JNI_ABORT ;;
     throw_out_of_memory ;;
     Return None) ;;
  d <- load_decompressor decompressor ;;
  out <- native (DecompressTyped (d_ctx d) decompressed_data decompressed_size
                   src_data (to_size_t src_len))
           (ZL_DCtx_decompressTyped zl (d_ctx d) decompressed_size
              (araw src) (to_size_t src_len)) ;;
  let decompress_report := fst (fst out) in
  let outputInfo := snd (fst out) in
  ReleaseArrayElements_ Input src src_data JNI_ABORT ;;
  when (ZL_isError decompress_report)
    (free decompressed_data ;;
     throw_openzl_exception (ZL_ErrorCode_toString zl (ZL_errorCode decompress_report)) ;;
     Return None) ;;
  let array_len := to_jsize (numElts outputInfo) in
  result <- NewArray_ ty array_len ;;
  when (is_null result)
    (free decompressed_data ;;
     throw_out_of_memory ;;
     Return None) ;;
  emit (SetArrayRegion ty result 0 array_len decompressed_data) ;;
  free decompressed_data ;;
  Return (Some (filled_array ty result array_len (snd out))).

Definition Java_net_openzl_OpenZLJNI_decompressNumericInts := decompressNumeric jint.
Definition Java_net_openzl_OpenZLJNI_decompressNumericLongs := decompressNumeric jlong.
Definition Java_net_openzl_OpenZLJNI_decompressNumericFloats := decompressNumeric jfloat.
Definition Java_net_openzl_OpenZLJNI_decompressNumericDoubles := decompressNumeric jdouble.

(** *** Utilities *)

Definition Java_net_openzl_OpenZLJNI_compressBound (src_len : Z) : Z :=
  to_jint (ZL_compressBound zl (to_size_t src_len)).

(** *** Frame introspection *)

(** The first [switch (output_type)] of [getCompressionInfo]. *)
Definition data_type_str (output_type : Z) : string :=
  match output_type with
  | 0 => "SERIAL"
  | 2 => "NUMERIC"
  | 1 => "STRUCT"
  | 3 => "STRING"
  | _ => "UNKNOWN"
  end.

(** The second [switch (output_type)] of [getCompressionInfo]. *)
Definition info_graph_id (output_type : Z) : Z :=
  match output_type with
  | 2 => 1
  | 0 => 0
  | 1 => 0
  | 3 => 0
  | _ => 0
  end.

(** A JNI lookup or construction call, which returned [res] *)
Definition lookup {R} (name : string) (res : Z) : M R Z :=
  emit (Lookup name res) ;; pure res.

Definition Java_net_openzl_OpenZLJNI_getCompressionInfo (compressed_data : jarray)
  : M (option CompressionInfo) (option CompressionInfo) :=
  when (is_null (aref compressed_data))
    (throw_exception IllegalArgumentException
       "[Error OpenZL JNI] Compressed data cannot be null" ;;
     Return None) ;;
  let compressed_len := alen compressed_data in
  when (compressed_len <=? 0)
    (throw_openzl_exception "[Error OpenZL JNI] Compressed data is empty" ;;
     Return None) ;;
  compressed_bytes <- GetArrayElements_ Input jbyte compressed_data ;;
  when (is_null compressed_bytes)
    (throw_out_of_memory ;;
     Return None) ;;
  compressed_size_result <-
    native (GetCompressedSize compressed_bytes (to_size_t compressed_len))
      (ZL_getCompressedSize zl (araw compressed_data) (to_size_t compressed_len)) ;;
  when (ZL_isError compressed_size_result)
    (ReleaseArrayElements_ Input compressed_data compressed_bytes JNI_ABORT ;;
     throw_openzl_exception "[Error OpenZL JNI] Failed to get compressed size" ;;
     Return None) ;;
  frame_info <- create KFrameInfo
                  (ZL_FrameInfo_create zl (araw compressed_data) (to_size_t compressed_len)) ;;
  when (is_null frame_info)
    (ReleaseArrayElements_ Input compressed_data compressed_bytes JNI_ABORT ;;
     throw_openzl_exception "[Error OpenZL JNI] Failed to create frame info" ;;
     Return None) ;;
  decompressed_size_result <-
    native (FrameInfoGetDecompressedSize frame_info 0)
      (ZL_FrameInfo_getDecompressedSize zl frame_info 0) ;;
  when (ZL_isError decompressed_size_result)
    (destroy KFrameInfo frame_info ;;
     ReleaseArrayElements_ Input compressed_data compressed_bytes JNI_ABORT ;;
     throw_openzl_exception "[Error OpenZL JNI] Failed to get decompressed size" ;;
     Return None) ;;
  output_type_result <-
    native (FrameInfoGetOutputType frame_info 0)
      (ZL_FrameInfo_getOutputType zl frame_info 0) ;;
  when (ZL_isError output_type_result)
    (destroy KFrameInfo frame_info ;;
     ReleaseArrayElements_ Input compressed_data compressed_bytes JNI_ABORT ;;
     throw_openzl_exception "[Error OpenZL JNI] Failed to get output type" ;;
     Return None) ;;
  let compressed_size := ZL_validResult compressed_size_result in
  let decompressed_size := ZL_validResult decompressed_size_result in
  let output_type := to_int (ZL_validResult output_type_result) in
  let data_type := data_type_str output_type in
  destroy KFrameInfo frame_info ;;
  ReleaseArrayElements_ Input compressed_data compressed_bytes JNI_ABORT ;;
  compression_info_class <-
    lookup "net/openzl/CompressionInfo" (FindClass env "net/openzl/CompressionInfo") ;;
  when (is_null compression_info_class)
    (throw_openzl_exception "[Error OpenZL JNI] Failed to find CompressionInfo class" ;;
     Return None) ;;
  constructor <-
    lookup "<init>"
      (GetMethodID env compression_info_class "<init>"
         "(JJLnet/openzl/CompressionGraph;Ljava/lang/String;)V") ;;
  when (is_null constructor)
    (throw_openzl_exception "[Error OpenZL JNI] Failed to find CompressionInfo constructor" ;;
     Return None) ;;
  compression_graph_class <-
    lookup "net/openzl/CompressionGraph" (FindClass env "net/openzl/CompressionGraph") ;;
  when (is_null compression_graph_class)
    (throw_openzl_exception "[Error OpenZL JNI] Failed to find CompressionGraph class" ;;
     Return None) ;;
  from_id_method <-
    lookup "fromId"
      (GetStaticMethodID env compression_graph_class "fromId"
         "(I)Lnet/openzl/CompressionGraph;") ;;
  when (is_null from_id_method)
    (throw_openzl_exception "[Error OpenZL JNI] Failed to find CompressionGraph.fromId method" ;;
     Return None) ;;
  let graph_id := info_graph_id output_type in
  let compression_graph :=
    CallStaticObjectMethod env compression_graph_class from_id_method graph_id in
  emit (FromId graph_id compression_graph) ;;
  when (is_null compression_graph)
    (throw_openzl_exception "[Error OpenZL JNI] Failed to create CompressionGraph object" ;;
     Return None) ;;
  let data_type_string := NewStringUTF env data_type in
  emit (NewStringUTFCall data_type data_type_string) ;;
  when (is_null data_type_string)
    (throw_out_of_memory ;;
     Return None) ;;
  let compression_info := NewObject env compression_info_class constructor in
  emit (NewObjectCall compression_info) ;;
  Return (if is_null compression_info then None
          else Some {| ci_ref := compression_info;
                       ci_decompressed_size := to_jlong decompressed_size;
                       ci_compressed_size := to_jlong compressed_size;
                       ci_graph_id := graph_id;
                       ci_graph := compression_graph;
                       ci_data_type := data_type |}).

End Binding.

(** ** Reading the log *)

(** *** Native resources *)

Inductive resource :=
| RBlock (p : Z)
| RObj (k : objkind) (p : Z)
| RElems (r : role) (array p : Z).

Definition objkind_eqb (a b : objkind) : bool :=
  match a, b with
  | KCCtx, KCCtx | KCompressor, KCompressor | KDCtx, KDCtx
  | KTypedRef, KTypedRef | KFrameInfo, KFrameInfo => true
  | _, _ => false
  end.

Definition role_eqb (a b : role) : bool :=
  match a, b with
  | Input, Input | Output, Output => true
  | _, _ => false
  end.

Definition resource_eqb (a b : resource) : bool :=
  match a, b with
  | RBlock p, RBlock q => p =? q
  | RObj k p, RObj l q => objkind_eqb k l && (p =? q)
  | RElems r a p, RElems s b q => role_eqb r s && (a =? b) && (p =? q)
  | _, _ => false
  end.

(** The resource a call hands out, when it does not return [NULL]. *)
Definition acquired (e : event) : option resource :=
  match e with
  | Malloc _ p => if is_null p then None else Some (RBlock p)
  | Create k p => if is_null p then None else Some (RObj k p)
  | GetElements r a p => if is_null p then None else Some (RElems r a p)
  | _ => None
  end.

(** The resource a call gives back. *)
Definition released (e : event) : option resource :=
  match e with
  | Free p => Some (RBlock p)
  | Destroy k p => Some (RObj k p)
  | ReleaseElements r a p _ => Some (RElems r a p)
  | _ => None
  end.

Fixpoint remove1 (r : resource) (live : list resource) : option (list resource) :=
  match live with
  | [] => None
  | x :: rest =>
      if resource_eqb r x then Some rest
      else match remove1 r rest with
           | Some rest' => Some (x :: rest')
           | None => None
           end
  end.

(** Replays a log against the set of live resources; [None] as soon as a
    call gives back something that is not live. *)
Fixpoint track (live : list resource) (t : list event) : option (list resource) :=
  match t with
  | [] => Some live
  | e :: t' =>
      match acquired e with
      | Some r => track (r :: live) t'
      | None =>
          match released e with
          | Some r =>
              match remove1 r live with
              | Some live' => track live' t'
              | None => None
              end
          | None => track live t'
          end
      end
  end.

(** Every resource handed out in [t] is given back in [t], once, and
    nothing is given back that is not held. *)
Definition balanced (t : list event) : Prop := track [] t = Some [].

(** *** Failures *)

Inductive error_kind :=
| ILLEGAL_ARGUMENT
| INVALID_HANDLE
| OUT_OF_MEMORY
| NATIVE_ERROR.

(** The binding raises three managed classes.  Its own exception class
    carries both the invalid-handle failures, recognised by their message,
    and every failure of the library. *)
Definition invalid_handle_message (msg : string) : bool :=
  String.eqb msg "[Error OpenZL JNI] Invalid compressor"
  || String.eqb msg "[Error OpenZL JNI]  Invalid compressor"
  || String.eqb msg "[Error OpenZL JNI] Invalid decompressor".

Definition error_kind_of (cls msg : string) : option error_kind :=
  if String.eqb cls IllegalArgumentException then Some ILLEGAL_ARGUMENT
  else if String.eqb cls OutOfMemoryError then Some OUT_OF_MEMORY
  else if String.eqb cls OpenZLException then
    Some (if invalid_handle_message msg then INVALID_HANDLE else NATIVE_ERROR)
  else None.

(** The failures raised along a log, in order. *)
Fixpoint raised (t : list event) : list (option error_kind) :=
  match t with
  | [] => []
  | ThrowNew cls msg :: t' => error_kind_of cls msg :: raised t'
  | _ :: t' => raised t'
  end.

(** What [throw_exception] leaves in the log. *)
Definition thrown (env : JNIEnv) (cls msg : string) : list event :=
  if is_null (FindClass env cls) then [] else [ThrowNew cls msg].

(** *** The steps of [createCompressor] after the context exists *)

Definition open_step_fails (zl : OpenZL) (graph_id : Z) : Prop :=
  let ctx := ZL_CCtx_create zl in
  let cmp := ZL_Compressor_create zl in
  cmp = NULL
  \/ ZL_isError (ZL_CCtx_setParameter zl ctx ZL_CParam_formatVersion
                   (ZL_MAX_FORMAT_VERSION zl)) = true
  \/ ZL_isError (ZL_CCtx_setParameter zl ctx ZL_CParam_compressionLevel
                   (ZL_COMPRESSIONLEVEL_DEFAULT zl)) = true
  \/ ZL_isError (ZL_Compressor_selectStartingGraphID zl cmp (selected_graph graph_id)) = true
  \/ ZL_isError (ZL_CCtx_refCompressor zl ctx cmp) = true.

(** *** The twelve compress and decompress entry points *)

Inductive numeric := I32 | I64 | F32 | F64.

Inductive operation :=
| compress_serial (src : jarray) (off len : Z)
| compress_serial_to_buffer (src : jarray) (off len : Z) (dst : jarray) (dst_off max_len : Z)
| compress_numeric (ty : numeric) (data : jarray)
| decompress_serial (src : jarray) (off len : Z)
| decompress_serial_to_buffer (src : jarray) (off len : Z) (dst : jarray) (dst_off max_len : Z)
| decompress_numeric (ty : numeric) (src : jarray).

Inductive retval :=
| RArray (a : option jarray)
| RInt (n : Z).

Record outcome := {
  ret : retval;
  trace : list event
}.

Definition array_outcome (r : result (option jarray)) : outcome :=
  {| ret := RArray (value r); trace := events r |}.

Definition int_outcome (r : result Z) : outcome :=
  {| ret := RInt (value r); trace := events r |}.

Definition invoke (env : JNIEnv) (zl : OpenZL) (libc : Libc)
    (op : operation) (id : Z) (s : state) : outcome :=
  match op with
  | compress_serial src off len =>
      array_outcome (run (Java_net_openzl_OpenZLJNI_compressSerial env zl libc id src off len) s)
  | compress_serial_to_buffer src off len dst dst_off max_len =>
      int_outcome (run (Java_net_openzl_OpenZLJNI_compressSerialToBuffer env zl
                          id src off len dst dst_off max_len) s)
  | compress_numeric I32 data =>
      array_outcome (run (Java_net_openzl_OpenZLJNI_compressNumericInts env zl libc id data) s)
  | compress_numeric I64 data =>
      array_outcome (run (Java_net_openzl_OpenZLJNI_compressNumericLongs env zl libc id data) s)
  | compress_numeric F32 data =>
      array_outcome (run (Java_net_openzl_OpenZLJNI_compressNumericFloats env zl libc id data) s)
  | compress_numeric F64 data =>
      array_outcome (run (Java_net_openzl_OpenZLJNI_compressNumericDoubles env zl libc id data) s)
  | decompress_serial src off len =>
      array_outcome (run (Java_net_openzl_OpenZLJNI_decompressSerial env zl libc id src off len) s)
  | decompress_serial_to_buffer src off len dst dst_off max_len =>
      int_outcome (run (Java_net_openzl_OpenZLJNI_decompressSerialToBuffer env zl
                          id src off len dst dst_off max_len) s)
  | decompress_numeric I32 src =>
      array_outcome (run (Java_net_openzl_OpenZLJNI_decompressNumericInts env zl libc id src) s)
  | decompress_numeric I64 src =>
      array_outcome (run (Java_net_openzl_OpenZLJNI_decompressNumericLongs env zl libc id src) s)
  | decompress_numeric F32 src =>
      array_outcome (run (Java_net_openzl_OpenZLJNI_decompressNumericFloats env zl libc id src) s)
  | decompress_numeric F64 src =>
      array_outcome (run (Java_net_openzl_OpenZLJNI_decompressNumericDoubles env zl libc id src) s)
  end.

Definition is_decompress (op : operation) : bool :=
  match op with
  | decompress_serial _ _ _ | decompress_serial_to_buffer _ _ _ _ _ _
  | decompress_numeric _ _ => true
  | _ => false
  end.

(** The array an operation reads. *)
Definition source (op : operation) : jarray :=
  match op with
  | compress_serial src _ _ | compress_serial_to_buffer src _ _ _ _ _
  | compress_numeric _ src | decompress_serial src _ _
  | decompress_serial_to_buffer src _ _ _ _ _ | decompress_numeric _ src => src
  end.

(** The value an operation returns when it fails. *)
Definition sentinel (op : operation) : retval :=
  match op with
  | compress_serial_to_buffer _ _ _ _ _ _
  | decompress_serial_to_buffer _ _ _ _ _ _ => RInt (-1)
  | _ => RArray None
  end.

(** The text raised for a zero handle. *)
Definition invalid_message (op : operation) : string :=
  match op with
  | compress_numeric I64 _ => "[Error OpenZL JNI]  Invalid compressor"
  | compress_serial _ _ _ | compress_serial_to_buffer _ _ _ _ _ _
  | compress_numeric _ _ => "[Error OpenZL JNI] Invalid compressor"
  | _ => "[Error OpenZL JNI] Invalid decompressor"
  end.

(** *** Pinned regions *)

Definition is_pin_event (e : event) : bool :=
  match e with
  | GetElements _ _ _ | ReleaseElements _ _ _ _ => true
  | _ => false
  end.

Definition pins (t : list event) : list event := filter is_pin_event t.

(** The library call that reads the input region and writes the output. *)
Definition is_codec_call (e : event) : bool :=
  match e with
  | Native (CompressTypedRef _ _ _ _)
  | Native (Decompress _ _ _ _)
  | Native (DecompressTyped _ _ _ _ _) => true
  | _ => false
  end.

(** Release modes as the data model words them: inputs discarded,
    destinations committed. *)
Definition mode_by_role (r : role) : Z :=
  match r with
  | Input => JNI_ABORT
  | Output => JNI_COMMIT_AND_FREE
  end.

Definition modes_by_role (t : list event) : bool :=
  forallb (fun e => match e with
                    | ReleaseElements r _ _ m => m =? mode_by_role r
                    | _ => true
                    end) t.

(** Release modes as the code has them: a destination is committed once the
    codec call has run, and discarded on the paths that end before it. *)
Definition mode_by_role_and_path (t : list event) (r : role) : Z :=
  match r with
  | Input => JNI_ABORT
  | Output => if existsb is_codec_call t then JNI_COMMIT_AND_FREE else JNI_ABORT
  end.

Definition modes_by_role_and_path (t : list event) : bool :=
  forallb (fun e => match e with
                    | ReleaseElements r _ _ m => m =? mode_by_role_and_path t r
                    | _ => true
                    end) t.

(** *** Copies out of scratch memory *)

(** The size [malloc] was asked for when it returned [buf]. *)
Fixpoint block_size (buf : Z) (t : list event) : option Z :=
  match t with
  | [] => None
  | Malloc size p :: t' => if p =? buf then Some size else block_size buf t'
  | _ :: t' => block_size buf t'
  end.

(** Every [Set<ty>ArrayRegion] reads no more bytes than the block it reads
    from holds. *)
Definition copies_within_blocks (t : list event) : bool :=
  forallb (fun e => match e with
                    | SetArrayRegion ty _ _ len buf =>
                        match block_size buf t with
                        | Some size => len * sizeof ty <=? size
                        | None => false
                        end
                    | _ => true
                    end) t.

(** *** The tables of the spec *)

(** The graph selection table: 1 and 9 the generic pipeline, 2 to 8 one
    pipeline each, 0 and every other code the ZSTD fallback. *)
Definition graph_selection_table (code : Z) : ZL_GraphID :=
  if (code =? 1) || (code =? 9) then ZL_GRAPH_COMPRESS_GENERIC
  else if code =? 2 then ZL_GRAPH_FIELD_LZ
  else if code =? 3 then ZL_GRAPH_STORE
  else if code =? 4 then ZL_GRAPH_FSE
  else if code =? 5 then ZL_GRAPH_HUFFMAN
  else if code =? 6 then ZL_GRAPH_ENTROPY
  else if code =? 7 then ZL_GRAPH_BITPACK
  else if code =? 8 then ZL_GRAPH_CONSTANT
  else ZL_GRAPH_ZSTD.

(** The data type of an output type code. *)
Definition data_type_table (code : Z) : string :=
  if code =? 0 then "SERIAL"
  else if code =? 1 then "STRUCT"
  else if code =? 2 then "NUMERIC"
  else if code =? 3 then "STRING"
  else "UNKNOWN".

(** The graph tag of an output type code: NUMERIC is code 2. *)
Definition graph_tag_table (code : Z) : GraphTag :=
  if code =? 2 then GENERIC_NUMERIC else DEFAULT_SERIAL.

(** ** Operations run from an empty log *)

Definition open_compressor (env : JNIEnv) (zl : OpenZL) (libc : Libc)
    (cm : Z -> openzl_compressor_t) (dm : Z -> openzl_decompressor_t) (graph_code : Z)
  : result Z :=
  run (Java_net_openzl_OpenZLJNI_createCompressor env zl libc graph_code) (start cm dm).

Definition open_decompressor (env : JNIEnv) (zl : OpenZL) (libc : Libc)
    (cm : Z -> openzl_compressor_t) (dm : Z -> openzl_decompressor_t)
  : result Z :=
  run (Java_net_openzl_OpenZLJNI_createDecompressor env zl libc) (start cm dm).

Definition get_compression_info (env : JNIEnv) (zl : OpenZL)
    (cm : Z -> openzl_compressor_t) (dm : Z -> openzl_decompressor_t) (data : jarray)
  : result (option CompressionInfo) :=
  run (Java_net_openzl_OpenZLJNI_getCompressionInfo env zl data) (start cm dm).

(** The output type code of the frame, as the C [int] the binding reads. *)
Definition output_type_of (zl : OpenZL) (data : jarray) : Z :=
  to_int (ZL_validResult
            (ZL_FrameInfo_getOutputType zl
               (ZL_FrameInfo_create zl (araw data) (to_size_t (alen data))) 0)).

(** Runs an operation in the native memory a previous one left. *)
Definition run_after {R A} (m : M A A) (r : result R) : result A :=
  run m (start (compressors (final r)) (decompressors (final r))).

(** ** What the round trip asks of the collaborators *)

(** The library is a codec for serial data: what a successful compress
    wrote is a frame of the reported size, within the capacity; the library
    reports the size of the data the frame holds, and decompresses the
    frame into a buffer of that size. *)
Definition serial_codec (zl : OpenZL) : Prop :=
  forall ctx cap data n frame,
    ZL_CCtx_compressTypedRef zl ctx cap (serial_ref data (size_of data))
    = (ZL_returnValue n, frame) ->
    size_of frame = n
    /\ n <= cap
    /\ ZL_getDecompressedSize zl frame n = ZL_returnValue (size_of data)
    /\ ZL_decompress zl (size_of data) frame n = (ZL_returnValue (size_of data), data).

(** No pin and no allocation fails, and [malloc] returns 64-bit addresses. *)
Definition never_out_of_memory (env : JNIEnv) (libc : Libc) : Prop :=
  (forall ty a, a <> NULL -> GetArrayElements env ty a <> NULL)
  /\ (forall ty n, NewArray env ty n <> NULL)
  /\ (forall n, 0 < malloc libc n < 2 ^ 64).

(** A successful compress reports a size within the capacity it was
    given. *)
Definition reports_within_capacity (zl : OpenZL) : Prop :=
  forall ctx cap tr n w,
    ZL_CCtx_compressTypedRef zl ctx cap tr = (ZL_returnValue n, w) -> 0 <= n <= cap.

(** The library creates its objects and accepts the configuration of
    [createCompressor] for the graph code. *)
Definition library_opens (zl : OpenZL) (graph_code : Z) : Prop :=
  ZL_CCtx_create zl <> NULL
  /\ ~ open_step_fails zl graph_code
  /\ ZL_DCtx_create zl <> NULL
  /\ (forall data n, ZL_TypedRef_createSerial zl data n <> NULL).

(** ** Concrete collaborators

    A managed runtime in which every lookup and allocation succeeds unless
    told otherwise, and a library whose frames are the stored input. *)

Definition toy_env (pin : jtype -> Z -> Z) (new_array : Z) : JNIEnv :=
  {| FindClass := fun _ => 7;
     GetArrayElements := pin;
     NewArray := fun _ _ => new_array;
     GetMethodID := fun _ _ _ => 11;
     GetStaticMethodID := fun _ _ _ => 12;
     CallStaticObjectMethod := fun _ _ id => 100 + id;
     NewStringUTF := fun _ => 13;
     NewObject := fun _ _ => 14 |}.

Definition env_ok : JNIEnv := toy_env (fun _ a => 4096 + Z.abs a) 9000.

(** The array with reference 1 cannot be pinned. *)
Definition env_pin1_fails : JNIEnv :=
  toy_env (fun _ a => if a =? 1 then NULL else 4096 + Z.abs a) 9000.

Definition store_compress (cap : Z) (tr : TypedRef) : ZL_Report * bytes :=
  let n := size_of (tr_data tr) in
  if n <=? cap then (ZL_returnValue n, tr_data tr) else (ZL_returnError 1, []).

Definition store_decompress (cap : Z) (src : bytes) : ZL_Report * bytes :=
  let n := size_of src in
  if n <=? cap then (ZL_returnValue n, src) else (ZL_returnError 2, []).

(** Typed frames of the toy library hold elements of [width] bytes. *)
Definition toy_zl (ref_report : ZL_Report) (width output_type : Z) : OpenZL :=
  {| ZL_MAX_FORMAT_VERSION := 21;
     ZL_COMPRESSIONLEVEL_DEFAULT := 6;
     ZL_ErrorCode_toString := fun _ => "Generic error"%string;
     ZL_CCtx_create := 16;
     ZL_Compressor_create := 32;
     ZL_DCtx_create := 48;
     ZL_CCtx_setParameter := fun _ _ _ => ZL_returnValue 0;
     ZL_Compressor_selectStartingGraphID := fun _ _ => ZL_returnValue 0;
     ZL_CCtx_refCompressor := fun _ _ => ref_report;
     ZL_compressBound := fun s => s + 64;
     ZL_TypedRef_createSerial := fun _ _ => 64;
     ZL_TypedRef_createNumeric := fun _ _ _ => 80;
     ZL_CCtx_compressTypedRef := fun _ cap tr => store_compress cap tr;
     ZL_getDecompressedSize := fun src _ => ZL_returnValue (size_of src);
     ZL_decompress := fun cap src _ => store_decompress cap src;
     ZL_DCtx_decompressTyped := fun _ cap src _ =>
       (fst (store_decompress cap src),
        {| numElts := size_of src / width |},
        snd (store_decompress cap src));
     ZL_getCompressedSize := fun _ n => ZL_returnValue n;
     ZL_FrameInfo_create := fun _ _ => 96;
     ZL_FrameInfo_getDecompressedSize := fun _ _ => ZL_returnValue 8;
     ZL_FrameInfo_getOutputType := fun _ _ => ZL_returnValue output_type |}.

Definition zl_store : OpenZL := toy_zl (ZL_returnValue 0) 4 2.

(** The last step of [createCompressor] is refused. *)
Definition zl_ref_refused : OpenZL := toy_zl (ZL_returnError 5) 4 2.

Definition libc_ok : Libc :=
  {| malloc := fun n => 8192 + 64 * (Z.abs n mod 1024);
     sizeof_openzl_compressor_t := 24;
     sizeof_openzl_decompressor_t := 8 |}.

Definition no_compressors : Z -> openzl_compressor_t :=
  fun _ => {| c_ctx := NULL; c_compressor := NULL; c_graph_id := ZL_GRAPH_ZSTD |}.

Definition no_decompressors : Z -> openzl_decompressor_t :=
  fun _ => {| d_ctx := NULL |}.

Definition hello : bytes :=
  [Byte.x68; Byte.x65; Byte.x6c; Byte.x6c; Byte.x6f].

Definition three_ints : bytes :=
  [Byte.x01; Byte.x00; Byte.x00; Byte.x00;
   Byte.x02; Byte.x00; Byte.x00; Byte.x00;
   Byte.x03; Byte.x00; Byte.x00; Byte.x00].

(** 2147483600 zero bytes: a length a Java array can have, whose bound in
    the store library, 2147483664, is past [INT_MAX]. *)
Definition many_zeros : bytes := repeat Byte.x00 (Z.to_nat 2147483600).

(** One compressor and one decompressor, opened in that order. *)
Definition a_compressor : result Z :=
  open_compressor env_ok zl_store libc_ok no_compressors no_decompressors 0.

Definition a_decompressor : result Z :=
  run_after (Java_net_openzl_OpenZLJNI_createDecompressor env_ok zl_store libc_ok) a_compressor.

Definition ready : state :=
  start (compressors (final a_decompressor)) (decompressors (final a_decompressor)).

(** The object built for a frame of the store library, whose output type
    is NUMERIC. *)
Definition numeric_info : CompressionInfo :=
  {| ci_ref := 14; ci_decompressed_size := 8; ci_compressed_size := 12;
     ci_graph_id := 1; ci_graph := 101; ci_data_type := "NUMERIC" |}.

(** ** The cleanup helpers *)

(** [cleanup_int_array_and_buffer] and [cleanup_byte_array_and_buffer] are
    one body up to the element type of the array. *)
Definition cleanup_array_and_buffer {R} (array : jarray) (array_elements buffer : Z)
  : M R unit :=
  when (negb (is_null array_elements) && negb (is_null (aref array)))
    (ReleaseArrayElements_ Input array array_elements JNI_ABORT) ;;
  when (negb (is_null buffer))
    (free buffer).

Definition cleanup_int_array_and_buffer {R} := cleanup_array_and_buffer (R := R).
Definition cleanup_byte_array_and_buffer {R} := cleanup_array_and_buffer (R := R).

Definition cleanup_typed_ref {R} (typed_ref : Z) : M R unit :=
  when (negb (is_null typed_ref))
    (destroy KTypedRef typed_ref).

(** The log a statement sequence leaves when it starts from [s]. *)
Definition effects (m : M unit unit) (s : state) : list event := log (snd (m s)).

(** ** More ways to read the log *)

Definition is_throw (e : event) : bool :=
  match e with ThrowNew _ _ => true | _ => false end.

(** Nothing is logged after an exception has been raised. *)
Fixpoint throw_is_last (t : list event) : bool :=
  match t with
  | [] => true
  | e :: t' => (negb (is_throw e) || match t' with [] => true | _ => false end)
               && throw_is_last t'
  end.

(** A call into the library other than creating or freeing an object. *)
Definition is_codec_or_config_call (e : event) : bool :=
  match e with Native _ => true | _ => false end.

Definition is_malloc (e : event) : bool :=
  match e with Malloc _ _ => true | _ => false end.

Definition is_size_query (e : event) : bool :=
  match e with Native (GetDecompressedSize _ _) => true | _ => false end.

Definition is_to_buffer (op : operation) : bool :=
  match op with
  | compress_serial_to_buffer _ _ _ _ _ _
  | decompress_serial_to_buffer _ _ _ _ _ _ => true
  | _ => false
  end.

Definition jtype_of (ty : numeric) : jtype :=
  match ty with
  | I32 => jint
  | I64 => jlong
  | F32 => jfloat
  | F64 => jdouble
  end.

(** A managed array of [count] elements of type [ty] over [data]. *)
Definition typed_array (ref count : Z) (data : bytes) : jarray :=
  {| aref := ref; alen := count; araw := data |}.

(** The library is a codec for numeric data of [width] bytes an element:
    what a successful compress wrote is a frame of the reported size,
    within the capacity; the library reports the byte size of the data the
    frame holds, and the typed decompress yields the data and its element
    count. *)
Definition numeric_codec (zl : OpenZL) (width : Z) : Prop :=
  forall ctx dctx cap data count n frame,
    size_of data = count * width ->
    ZL_CCtx_compressTypedRef zl ctx cap (numeric_ref data width count)
    = (ZL_returnValue n, frame) ->
    size_of frame = n
    /\ n <= cap
    /\ ZL_getDecompressedSize zl frame n = ZL_returnValue (size_of data)
    /\ ZL_DCtx_decompressTyped zl dctx (size_of data) frame n
       = (ZL_returnValue (size_of data), {| numElts := count |}, data).

(** The capacity and the typed reference a compress operation hands to
    [ZL_CCtx_compressTypedRef]. *)
Definition compress_request (zl : OpenZL) (op : operation) : option (Z * TypedRef) :=
  match op with
  | compress_serial src off len =>
      Some (ZL_compressBound zl (to_size_t len),
            serial_ref (window (araw src) off len) (to_size_t len))
  | compress_serial_to_buffer src off len _ _ max_len =>
      Some (to_size_t max_len,
            serial_ref (window (araw src) off len) (to_size_t len))
  | compress_numeric ty data =>
      Some (ZL_compressBound zl (to_size_t (to_size_t (alen data) * sizeof (jtype_of ty))),
            numeric_ref (araw data) (sizeof (jtype_of ty)) (to_size_t (alen data)))
  | _ => None
  end.

(** The library never reports more than the capacity it was given. *)
Definition respects_capacity (zl : OpenZL) : Prop :=
  (forall ctx cap tr n w,
      ZL_CCtx_compressTypedRef zl ctx cap tr = (ZL_returnValue n, w) -> 0 <= n <= cap)
  /\ (forall cap src k n w,
        ZL_decompress zl cap src k = (ZL_returnValue n, w) -> 0 <= n <= cap).

Definition builds_byte_array (op : operation) : bool :=
  match op with
  | compress_serial _ _ _ | compress_numeric _ _ | decompress_serial _ _ _ => true
  | _ => false
  end.

(** The bytes and the size a decompress operation that first queries the
    frame hands to [ZL_getDecompressedSize]. *)
Definition size_query (op : operation) : option (bytes * Z) :=
  match op with
  | decompress_serial src off len => Some (window (araw src) off len, to_size_t len)
  | decompress_numeric _ src => Some (araw src, to_size_t (alen src))
  | _ => None
  end.

(** A pin of [array] and an allocation of [n] bytes, then a cleanup
    helper on what the two returned. *)
Definition pin_allocate_cleanup (env : JNIEnv) (libc : Libc)
    (cleanup : jarray -> Z -> Z -> M unit unit) (ty : jtype) (array : jarray) (n : Z)
  : M unit unit :=
  elements <- GetArrayElements_ env Input ty array ;;
  buffer <- call_malloc libc n ;;
  cleanup array elements buffer.

(** The creation of a typed reference, then its cleanup helper. *)
Definition create_cleanup_typed_ref (ref : Z) : M unit unit :=
  typed_ref <- create KTypedRef ref ;;
  cleanup_typed_ref typed_ref.

(** ** More concrete collaborators *)

(** No memory is left. *)
Definition libc_exhausted : Libc :=
  {| malloc := fun _ => NULL;
     sizeof_openzl_compressor_t := 24;
     sizeof_openzl_decompressor_t := 8 |}.

(** The constructor of [CompressionInfo] returns no object. *)
Definition env_constructor_fails : JNIEnv :=
  {| FindClass := FindClass env_ok;
     GetArrayElements := GetArrayElements env_ok;
     NewArray := NewArray env_ok;
     GetMethodID := GetMethodID env_ok;
     GetStaticMethodID := GetStaticMethodID env_ok;
     CallStaticObjectMethod := CallStaticObjectMethod env_ok;
     NewStringUTF := NewStringUTF env_ok;
     NewObject := fun _ _ => NULL |}.

(** The store library, except that no frame tells its decompressed size. *)
Definition zl_size_unknown : OpenZL :=
  {| ZL_MAX_FORMAT_VERSION := ZL_MAX_FORMAT_VERSION zl_store;
     ZL_COMPRESSIONLEVEL_DEFAULT := ZL_COMPRESSIONLEVEL_DEFAULT zl_store;
     ZL_ErrorCode_toString := ZL_ErrorCode_toString zl_store;
     ZL_CCtx_create := ZL_CCtx_create zl_store;
     ZL_Compressor_create := ZL_Compressor_create zl_store;
     ZL_DCtx_create := ZL_DCtx_create zl_store;
     ZL_CCtx_setParameter := ZL_CCtx_setParameter zl_store;
     ZL_Compressor_selectStartingGraphID := ZL_Compressor_selectStartingGraphID zl_store;
     ZL_CCtx_refCompressor := ZL_CCtx_refCompressor zl_store;
     ZL_compressBound := ZL_compressBound zl_store;
     ZL_TypedRef_createSerial := ZL_TypedRef_createSerial zl_store;
     ZL_TypedRef_createNumeric := ZL_TypedRef_createNumeric zl_store;
     ZL_CCtx_compressTypedRef := ZL_CCtx_compressTypedRef zl_store;
     ZL_getDecompressedSize := fun _ _ => ZL_returnError 3;
     ZL_decompress := ZL_decompress zl_store;
     ZL_DCtx_decompressTyped := ZL_DCtx_decompressTyped zl_store;
     ZL_getCompressedSize := ZL_getCompressedSize zl_store;
     ZL_FrameInfo_create := ZL_FrameInfo_create zl_store;
     ZL_FrameInfo_getDecompressedSize := ZL_FrameInfo_getDecompressedSize zl_store;
     ZL_FrameInfo_getOutputType := ZL_FrameInfo_getOutputType zl_store |}.

(** A destination of 69 bytes, the bound of the store library for five. *)
Definition room : bytes := repeat Byte.x00 69.

(** The capacity, the frame and the frame size a serial decompress
    operation hands to [ZL_decompress]. *)
Definition decompress_request (zl : OpenZL) (op : operation) : option (Z * bytes * Z) :=
  match op with
  | decompress_serial src off len =>
      let view := window (araw src) off len in
      Some (ZL_validResult (ZL_getDecompressedSize zl view (to_size_t len)),
            view, to_size_t len)
  | decompress_serial_to_buffer src off len _ _ max_len =>
      Some (to_size_t max_len, window (araw src) off len, to_size_t len)
  | _ => None
  end.

(** No exception class can be found. *)
Definition env_no_classes : JNIEnv :=
  {| FindClass := fun _ => NULL;
     GetArrayElements := GetArrayElements env_ok;
     NewArray := NewArray env_ok;
     GetMethodID := GetMethodID env_ok;
     GetStaticMethodID := GetStaticMethodID env_ok;
     CallStaticObjectMethod := CallStaticObjectMethod env_ok;
     NewStringUTF := NewStringUTF env_ok;
     NewObject := NewObject env_ok |}.

(** ** Proof support *)

Lemma is_null_false (p : Z) : p <> NULL -> is_null p = false.
Proof. intro H. apply Z.eqb_neq. exact H. Qed.

Lemma is_null_true (p : Z) : p = NULL -> is_null p = true.
Proof. intro H. apply Z.eqb_eq. exact H. Qed.

(** [throw_exception] appends [thrown] to the log and goes on. *)
Lemma throw_exception_run (R : Type) (env : JNIEnv) (cls msg : string) (s : state) :
  throw_exception (R := R) env cls msg s
  = (Go tt, {| log := log s ++ thrown env cls msg;
               compressors := compressors s;
               decompressors := decompressors s |}).
Proof.
  unfold throw_exception, thrown, when.
  destruct (is_null (FindClass env cls)); simpl.
  - rewrite app_nil_r. destruct s; reflexivity.
  - reflexivity.
Qed.

(** Unfolds the monad and the logged calls, leaving the branch conditions
    and the raised exceptions. *)
Ltac mred :=
  cbv beta iota zeta delta
    [run events final value log compressors decompressors start
     open_compressor open_decompressor get_compression_info invoke
     Java_net_openzl_OpenZLJNI_createCompressor
     Java_net_openzl_OpenZLJNI_destroyCompressor
     Java_net_openzl_OpenZLJNI_createDecompressor
     Java_net_openzl_OpenZLJNI_destroyDecompressor
     Java_net_openzl_OpenZLJNI_compressSerial
     Java_net_openzl_OpenZLJNI_compressSerialToBuffer
     Java_net_openzl_OpenZLJNI_compressNumericInts
     Java_net_openzl_OpenZLJNI_compressNumericLongs
     Java_net_openzl_OpenZLJNI_compressNumericFloats
     Java_net_openzl_OpenZLJNI_compressNumericDoubles
     Java_net_openzl_OpenZLJNI_decompressSerial
     Java_net_openzl_OpenZLJNI_decompressSerialToBuffer
     Java_net_openzl_OpenZLJNI_decompressNumericInts
     Java_net_openzl_OpenZLJNI_decompressNumericLongs
     Java_net_openzl_OpenZLJNI_decompressNumericFloats
     Java_net_openzl_OpenZLJNI_decompressNumericDoubles
     Java_net_openzl_OpenZLJNI_getCompressionInfo
     compressNumeric decompressNumeric
     array_outcome int_outcome ret trace
     bind when pure Return emit call_malloc free create destroy native lookup
     GetArrayElements_ ReleaseArrayElements_ NewArray_
     store_compressor load_compressor store_decompressor load_decompressor
     throw_openzl_exception throw_out_of_memory throw_openzl_report_error
     fst snd negb orb app].

(** Uses what is known about a call or a branch condition. *)
Ltac known :=
  match goal with
  | H : ?c = _ |- context [if ?c then _ else _] => rewrite H
  | H : ?x = (_, _) |- context [?x] => rewrite H
  | H : to_jsize ?n = _ |- context [to_jsize ?n] => rewrite H
  end.

(** Splits on the branch condition the body is waiting for: the one whose
    [if] is applied to the current state.  A null test inside a compound
    condition is decided first. *)
Ltac branch :=
  match goal with
  | |- context [(if ?c then _ else _) ?s] =>
      lazymatch c with
      | context [is_null ?p] => destruct (is_null p) eqn:?
      | _ => destruct c eqn:?
      end
  end.

(** Splits on any remaining condition, once the body has returned. *)
Ltac settle :=
  repeat match goal with
         | H : ?c = _ |- context [if ?c then _ else _] => rewrite H
         | |- context [if is_null ?p then _ else _] => destruct (is_null p) eqn:?
         | |- context [if ?c then _ else _] => destruct c eqn:?
         end.

Ltac paths :=
  mred;
  repeat (first [ rewrite throw_exception_run
                | rewrite Z.eqb_refl
                | known
                | progress cbn [ZL_isError ZL_validResult ZL_errorCode]
                | branch ];
          mred).

(** Replays a literal log whose pointers are known not to be [NULL]. *)
Ltac replay :=
  unfold balanced, pins;
  repeat (cbn [track acquired released remove1 resource_eqb objkind_eqb role_eqb
               filter is_pin_event andb];
          repeat match goal with
                 | H : is_null ?p = _ |- context [is_null ?p] => rewrite H
                 end;
          rewrite ?Z.eqb_refl);
  try reflexivity.

(** The part of a literal log that precedes the exception it ends with. *)
Ltac before_throw l :=
  match l with
  | thrown _ _ _ => constr:(@nil event)
  | ?e :: ?t => let p := before_throw t in constr:(e :: p)
  end.

(** Membership in a literal log. *)
Ltac member := cbn [In]; solve [repeat first [left; reflexivity | right]].

(** ** Handles *)

Lemma selected_graph_table (g : Z) : selected_graph g = graph_selection_table g.
Proof.
  destruct g as [|p|p]; try reflexivity.
  do 4 (try (destruct p as [p|p|]; try reflexivity)).
Qed.

Section Handles.

Variable env : JNIEnv.
Variable zl : OpenZL.
Variable libc : Libc.
Variable cm : Z -> openzl_compressor_t.
Variable dm : Z -> openzl_decompressor_t.

(** C3. [createCompressor] selects its pipeline by the graph selection
    table: 1 and 9 the generic pipeline, 2 Field-LZ, 3 Store, 4 FSE,
    5 Huffman, 6 general entropy, 7 bitpacking, 8 constant-value, and 0 and
    every other code the ZSTD fallback.  The selected pipeline is the only
    one ever passed to the descriptor, and a handle that is returned had it
    passed and stored in its record.  A run whose allocations and two
    parameter settings succeed does pass the table's pipeline to the
    descriptor, and a run in which no step fails returns the address of a
    record that holds the table's pipeline. *)
Theorem createCompressor_selects_by_table (g : Z) :
  selected_graph g = graph_selection_table g
  /\ (forall cmp g',
        In (Native (SelectStartingGraphID cmp g'))
           (events (open_compressor env zl libc cm dm g)) ->
        g' = graph_selection_table g)
  /\ (value (open_compressor env zl libc cm dm g) = 0
      \/ (In (Native (SelectStartingGraphID (ZL_Compressor_create zl)
                        (graph_selection_table g)))
             (events (open_compressor env zl libc cm dm g))
          /\ c_graph_id (compressors (final (open_compressor env zl libc cm dm g))
                           (malloc libc (sizeof_openzl_compressor_t libc)))
             = graph_selection_table g))
  /\ (malloc libc (sizeof_openzl_compressor_t libc) <> NULL ->
      ZL_CCtx_create zl <> NULL ->
      ZL_Compressor_create zl <> NULL ->
      ZL_isError (ZL_CCtx_setParameter zl (ZL_CCtx_create zl) ZL_CParam_formatVersion
                    (ZL_MAX_FORMAT_VERSION zl)) = false ->
      ZL_isError (ZL_CCtx_setParameter zl (ZL_CCtx_create zl) ZL_CParam_compressionLevel
                    (ZL_COMPRESSIONLEVEL_DEFAULT zl)) = false ->
      In (Native (SelectStartingGraphID (ZL_Compressor_create zl)
                    (graph_selection_table g)))
         (events (open_compressor env zl libc cm dm g)))
  /\ (malloc libc (sizeof_openzl_compressor_t libc) <> NULL ->
      ZL_CCtx_create zl <> NULL ->
      ~ open_step_fails zl g ->
      value (open_compressor env zl libc cm dm g)
      = to_jlong (to_uintptr_t (malloc libc (sizeof_openzl_compressor_t libc)))
      /\ raised (events (open_compressor env zl libc cm dm g)) = []
      /\ c_graph_id (compressors (final (open_compressor env zl libc cm dm g))
                       (malloc libc (sizeof_openzl_compressor_t libc)))
         = graph_selection_table g).
Proof.
  rewrite <- (selected_graph_table g).
  split; [reflexivity|].
  assert (Hold :
    (forall cmp g',
        In (Native (SelectStartingGraphID cmp g'))
           (events (open_compressor env zl libc cm dm g)) ->
        g' = selected_graph g)
    /\ (value (open_compressor env zl libc cm dm g) = 0
        \/ (In (Native (SelectStartingGraphID (ZL_Compressor_create zl) (selected_graph g)))
               (events (open_compressor env zl libc cm dm g))
            /\ c_graph_id (compressors (final (open_compressor env zl libc cm dm g))
                             (malloc libc (sizeof_openzl_compressor_t libc)))
               = selected_graph g))).
  { paths; unfold thrown; settle.
    all: split;
      [ intros cmp g' Hin; cbn [In] in Hin;
        repeat (destruct Hin as [Hin|Hin];
                [try discriminate Hin; try (injection Hin; congruence)|]);
        try contradiction
      | ].
    all: try (left; reflexivity).
    right. split; [member | reflexivity]. }
  destruct Hold as [Honly Hret].
  split; [exact Honly|]. split; [exact Hret|]. split.
  - intros Hm Hc Hk Hv Hl. apply is_null_false in Hm, Hc, Hk.
    paths; unfold thrown; settle; member.
  - intros Hm Hc Hsteps. apply is_null_false in Hm, Hc.
    paths.
    all: try (exfalso; apply Hsteps; unfold open_step_fails;
              repeat match goal with H : is_null _ = true |- _ => apply Z.eqb_eq in H end;
              tauto).
    repeat split; reflexivity.
Qed.

(** C1. For every graph code, when a step of [createCompressor] fails
    after the compression context exists, the operation returns 0, and its
    log is a balanced prefix followed by the exception: the descriptor (if
    it was created), the context and the handle record have all been given
    back before the failure is raised. *)
Theorem createCompressor_failure_releases_everything (g : Z) :
  malloc libc (sizeof_openzl_compressor_t libc) <> NULL ->
  ZL_CCtx_create zl <> NULL ->
  open_step_fails zl g ->
  value (open_compressor env zl libc cm dm g) = 0
  /\ exists pre msg,
       events (open_compressor env zl libc cm dm g)
       = pre ++ thrown env OpenZLException msg
       /\ balanced pre
       /\ In (Destroy KCCtx (ZL_CCtx_create zl)) pre
       /\ In (Free (malloc libc (sizeof_openzl_compressor_t libc))) pre
       /\ (ZL_Compressor_create zl <> NULL ->
           In (Destroy KCompressor (ZL_Compressor_create zl)) pre).
Proof.
  intros Hm Hc Hf.
  apply is_null_false in Hm, Hc.
  paths.
  all: try (exfalso; unfold open_step_fails in Hf;
            repeat match goal with H : is_null _ = false |- _ => apply Z.eqb_neq in H end;
            intuition congruence).
  all: split; [reflexivity|].
  all: match goal with
       | |- exists pre msg, ?l = _ /\ _ =>
           let p := before_throw l in exists p; eexists
       end.
  all: split; [reflexivity|].
  all: split; [replay; fail|].
  all: split; [member | split; [member | ]].
  all: intro Hk; apply is_null_false in Hk; try congruence; member.
Qed.

End Handles.

(** ** Compress and decompress operations *)

Section Operations.

Variable env : JNIEnv.
Variable zl : OpenZL.
Variable libc : Libc.
Variable cm : Z -> openzl_compressor_t.
Variable dm : Z -> openzl_decompressor_t.

(** C2, as the code has it.  On every control path of every compress and
    decompress operation each pinned region is released exactly once.
    Input regions are always released with [JNI_ABORT]; a destination
    region is released with commit on the paths that ran the codec call,
    and with [JNI_ABORT] on the paths that end before it. *)
Theorem pinned_regions_released_once (op : operation) (id : Z) :
  balanced (pins (trace (invoke env zl libc op id (start cm dm))))
  /\ modes_by_role_and_path (trace (invoke env zl libc op id (start cm dm))) = true.
Proof.
  destruct op as [src off len|src off len dst dst_off max_len|ty data
                 |src off len|src off len dst dst_off max_len|ty src];
    try destruct ty; paths; unfold thrown; settle.
  all: split; [replay | reflexivity].
Qed.

Lemma invalid_message_kind (op : operation) :
  error_kind_of OpenZLException (invalid_message op) = Some INVALID_HANDLE.
Proof.
  destruct op as [src off len|src off len dst dst_off max_len|ty data
                 |src off len|src off len dst dst_off max_len|ty src];
    try destruct ty; reflexivity.
Qed.

(** A zero handle leaves the invalid-handle exception alone in the log. *)
Lemma zero_handle_outcome (op : operation) :
  FindClass env OpenZLException <> NULL ->
  trace (invoke env zl libc op 0 (start cm dm))
  = [ThrowNew OpenZLException (invalid_message op)]
  /\ ret (invoke env zl libc op 0 (start cm dm)) = sentinel op.
Proof.
  intro Hcls. apply is_null_false in Hcls.
  destruct op as [src off len|src off len dst dst_off max_len|ty data
                 |src off len|src off len dst dst_off max_len|ty src];
    try destruct ty; paths; unfold thrown; rewrite Hcls.
  all: split; reflexivity.
Qed.

(** C4. With a zero handle every compress and decompress operation raises
    the invalid-handle failure and does nothing else: the log holds that
    exception alone, and the value returned is [null] for the operations
    that build an array and -1 for the two that fill a buffer. *)
Theorem zero_handle_is_rejected (op : operation) :
  FindClass env OpenZLException <> NULL ->
  trace (invoke env zl libc op 0 (start cm dm))
  = [ThrowNew OpenZLException (invalid_message op)]
  /\ raised (trace (invoke env zl libc op 0 (start cm dm))) = [Some INVALID_HANDLE]
  /\ ret (invoke env zl libc op 0 (start cm dm)) = sentinel op.
Proof.
  intro Hcls. destruct (zero_handle_outcome op Hcls) as (Ht & Hr).
  split; [exact Ht|]. split; [|exact Hr].
  rewrite Ht. cbn [raised]. rewrite invalid_message_kind. reflexivity.
Qed.

(** C5, as the code has it.  A decompress operation compares its handle
    with zero and nothing else: the zero handle raises the invalid-handle
    failure, and every other handle, negative ones included, passes the
    check, so that the operation goes on to pin its source array. *)
Theorem decompress_checks_zero_only (op : operation) :
  is_decompress op = true ->
  FindClass env OpenZLException <> NULL ->
  (raised (trace (invoke env zl libc op 0 (start cm dm))) = [Some INVALID_HANDLE]
   /\ ret (invoke env zl libc op 0 (start cm dm)) = sentinel op)
  /\ forall id, id <> 0 ->
       exists rest,
         trace (invoke env zl libc op id (start cm dm))
         = GetElements Input (aref (source op))
             (GetArrayElements env jbyte (aref (source op))) :: rest.
Proof.
  intros Hop Hcls. split.
  - destruct (zero_handle_outcome op Hcls) as (Ht & Hr).
    split; [|exact Hr].
    rewrite Ht. cbn [raised]. rewrite invalid_message_kind. reflexivity.
  - intros id Hid. apply Z.eqb_neq in Hid.
    destruct op as [src off len|src off len dst dst_off max_len|ty data
                   |src off len|src off len dst dst_off max_len|ty src];
      try discriminate Hop; try destruct ty; paths.
    all: eexists; reflexivity.
Qed.

End Operations.

(** ** Sizes *)

Lemma to_jsize_small (n : Z) : 0 <= n <= INT_MAX -> to_jsize n = n.
Proof.
  unfold to_jsize, wrap_signed, INT_MAX. intro H.
  change (2 ^ (32 - 1)) with 2147483648. change (2 ^ 32) with 4294967296.
  change (2 ^ 31 - 1) with 2147483647 in H.
  rewrite Z.mod_small; lia.
Qed.

Lemma to_jint_small (n : Z) : 0 <= n <= INT_MAX -> to_jint n = n.
Proof. exact (to_jsize_small n). Qed.

(** A size between [INT_MAX] and 2^32 becomes a negative Java int. *)
Lemma to_jint_wraps (b : Z) : INT_MAX < b < 2 ^ 32 -> to_jint b = b - 2 ^ 32.
Proof.
  unfold to_jint, wrap_signed, INT_MAX. intro H.
  change (2 ^ 31 - 1) with 2147483647 in H.
  change (2 ^ (32 - 1)) with 2147483648. change (2 ^ 32) with 4294967296 in *.
  replace (b + 2147483648) with (b - 2147483648 + 1 * 4294967296) by lia.
  rewrite Z.mod_add by lia. rewrite Z.mod_small; lia.
Qed.

Lemma to_size_t_small (n : Z) : 0 <= n <= INT_MAX -> to_size_t n = n.
Proof.
  unfold to_size_t, wrap_unsigned, INT_MAX. intro H.
  change (2 ^ 31 - 1) with 2147483647 in H.
  change (2 ^ 64) with 18446744073709551616.
  rewrite Z.mod_small; lia.
Qed.

Section Serial.

Variable env : JNIEnv.
Variable zl : OpenZL.
Variable libc : Libc.
Variable cm : Z -> openzl_compressor_t.
Variable dm : Z -> openzl_decompressor_t.

(** What [compressSerial] returns when every step succeeds. *)
Lemma compressSerial_returns
    (compressor_ptr : Z) (src : jarray) (src_off src_len n : Z) (written : bytes) :
  compressor_ptr <> 0 ->
  GetArrayElements env jbyte (aref src) <> NULL ->
  malloc libc (ZL_compressBound zl (to_size_t src_len)) <> NULL ->
  ZL_TypedRef_createSerial zl (window (araw src) src_off src_len) (to_size_t src_len) <> NULL ->
  ZL_CCtx_compressTypedRef zl (c_ctx (cm (to_uintptr_t compressor_ptr)))
    (ZL_compressBound zl (to_size_t src_len))
    (serial_ref (window (araw src) src_off src_len) (to_size_t src_len))
  = (ZL_returnValue n, written) ->
  0 <= n <= INT_MAX ->
  NewArray env jbyte n <> NULL ->
  value (run (Java_net_openzl_OpenZLJNI_compressSerial env zl libc
                compressor_ptr src src_off src_len) (start cm dm))
  = Some (filled_array jbyte (NewArray env jbyte n) n written)
  /\ raised (events (run (Java_net_openzl_OpenZLJNI_compressSerial env zl libc
                            compressor_ptr src src_off src_len) (start cm dm))) = [].
Proof.
  intros Hid Hpin Hmem Href Hnative Hn Hnew.
  apply Z.eqb_neq in Hid.
  assert (Hjs : to_jsize n = n) by (apply to_jsize_small; lia).
  apply is_null_false in Hpin, Hmem, Href, Hnew.
  paths. split; reflexivity.
Qed.


End Serial.

(** ** The serial round trip *)

Lemma handle_round_trip (p : Z) :
  0 < p < 2 ^ 64 -> to_uintptr_t (to_jlong (to_uintptr_t p)) = p /\ to_jlong (to_uintptr_t p) <> 0.
Proof.
  intro Hp.
  assert (H1 : to_uintptr_t p = p).
  { unfold to_uintptr_t, wrap_unsigned. apply Z.mod_small. lia. }
  assert (H2 : to_uintptr_t (to_jlong p) = p).
  { unfold to_uintptr_t, to_jlong, wrap_unsigned, wrap_signed.
    rewrite Zminus_mod_idemp_l.
    replace (p + 2 ^ (64 - 1) - 2 ^ (64 - 1)) with p by lia.
    apply Z.mod_small. lia. }
  rewrite H1. split; [exact H2|].
  intro H0. rewrite H0 in H2. vm_compute in H2. lia.
Qed.

Lemma window_whole (data : bytes) : window data 0 (size_of data) = data.
Proof.
  unfold window, size_of. rewrite Nat2Z.id. simpl. apply firstn_all.
Qed.

Lemma filled_byte_array (ref : Z) (data : bytes) :
  araw (filled_array jbyte ref (size_of data) data) = data
  /\ alen (filled_array jbyte ref (size_of data) data) = size_of data.
Proof.
  unfold filled_array, size_of. simpl. rewrite Z.mul_1_r, Nat2Z.id.
  split; [apply firstn_all | reflexivity].
Qed.

Lemma size_of_nonneg (data : bytes) : 0 <= size_of data.
Proof. unfold size_of. lia. Qed.

Section RoundTrip.

Variable env : JNIEnv.
Variable zl : OpenZL.
Variable libc : Libc.

Hypothesis Hcodec : serial_codec zl.
Hypothesis Hmem : never_out_of_memory env libc.

(** [createCompressor] succeeds and leaves the context in the record. *)
Lemma open_compressor_ready (cm : Z -> openzl_compressor_t)
    (dm : Z -> openzl_decompressor_t) (G : Z) :
  library_opens zl G ->
  let p := malloc libc (sizeof_openzl_compressor_t libc) in
  value (open_compressor env zl libc cm dm G) = to_jlong (to_uintptr_t p)
  /\ c_ctx (compressors (final (open_compressor env zl libc cm dm G)) p) = ZL_CCtx_create zl.
Proof.
  intros (Hctx & Hsteps & _ & _) p.
  destruct Hmem as (_ & _ & Hmalloc).
  assert (Hp : is_null p = false) by (apply is_null_false; unfold NULL; specialize (Hmalloc (sizeof_openzl_compressor_t libc)); subst p; lia).
  apply is_null_false in Hctx.
  subst p. paths.
  all: try (exfalso; apply Hsteps; unfold open_step_fails;
            repeat match goal with H : is_null _ = true |- _ => apply Z.eqb_eq in H end;
            tauto).
  split; reflexivity.
Qed.

(** [compressSerial] on a whole array returns the frame the library wrote. *)
Lemma compressSerial_whole (cm : Z -> openzl_compressor_t)
    (dm : Z -> openzl_decompressor_t) (id ref : Z) (B : bytes) (n : Z) (frame : bytes) :
  id <> 0 ->
  ref <> NULL ->
  (forall data k, ZL_TypedRef_createSerial zl data k <> NULL) ->
  size_of B <= INT_MAX ->
  ZL_compressBound zl (size_of B) <= INT_MAX ->
  ZL_CCtx_compressTypedRef zl (c_ctx (cm (to_uintptr_t id)))
    (ZL_compressBound zl (size_of B)) (serial_ref B (size_of B))
  = (ZL_returnValue n, frame) ->
  value (run (Java_net_openzl_OpenZLJNI_compressSerial env zl libc
                id (byte_array ref B) 0 (size_of B)) (start cm dm))
  = Some (filled_array jbyte (NewArray env jbyte n) n frame).
Proof.
  intros Hid Href Htr HB Hfit Hnative.
  destruct Hmem as (Hpin & Hnew & Hmalloc).
  destruct (Hcodec _ _ _ _ _ Hnative) as (Hsize & Hcap & _).
  pose proof (size_of_nonneg B) as HB0.
  pose proof (size_of_nonneg frame) as Hf0.
  assert (Hs : to_size_t (size_of B) = size_of B) by (apply to_size_t_small; lia).
  assert (Hjs : to_jsize n = n) by (apply to_jsize_small; lia).
  apply Z.eqb_neq in Hid.
  specialize (Hpin jbyte ref Href). apply is_null_false in Hpin.
  specialize (Hnew jbyte n). apply is_null_false in Hnew.
  assert (Hm : is_null (malloc libc (ZL_compressBound zl (size_of B))) = false).
  { apply is_null_false. unfold NULL.
    specialize (Hmalloc (ZL_compressBound zl (size_of B))). lia. }
  assert (Ht : is_null (ZL_TypedRef_createSerial zl B (size_of B)) = false).
  { apply is_null_false. apply Htr. }
  mred. cbn [byte_array aref araw alen]. rewrite Hs, window_whole.
  paths. reflexivity.
Qed.

(** [decompressSerial] on a frame returns the data the library decodes. *)
Lemma decompressSerial_frame (cm : Z -> openzl_compressor_t)
    (dm : Z -> openzl_decompressor_t) (id ref : Z) (frame B : bytes) :
  id <> 0 ->
  ref <> NULL ->
  size_of frame <= INT_MAX ->
  size_of B <= INT_MAX ->
  ZL_getDecompressedSize zl frame (size_of frame) = ZL_returnValue (size_of B) ->
  ZL_decompress zl (size_of B) frame (size_of frame) = (ZL_returnValue (size_of B), B) ->
  value (run (Java_net_openzl_OpenZLJNI_decompressSerial env zl libc
                id (filled_array jbyte ref (size_of frame) frame) 0 (size_of frame))
           (start cm dm))
  = Some (filled_array jbyte (NewArray env jbyte (size_of B)) (size_of B) B).
Proof.
  intros Hid Href Hf HB Hsize Hdec.
  destruct Hmem as (Hpin & Hnew & Hmalloc).
  pose proof (size_of_nonneg B) as HB0.
  pose proof (size_of_nonneg frame) as Hf0.
  assert (Hs : to_size_t (size_of frame) = size_of frame) by (apply to_size_t_small; lia).
  assert (Hjs : to_jsize (size_of B) = size_of B) by (apply to_jsize_small; lia).
  apply Z.eqb_neq in Hid.
  specialize (Hpin jbyte ref Href). apply is_null_false in Hpin.
  specialize (Hnew jbyte (size_of B)). apply is_null_false in Hnew.
  assert (Hm : is_null (malloc libc (size_of B)) = false).
  { apply is_null_false. unfold NULL. specialize (Hmalloc (size_of B)). lia. }
  destruct (filled_byte_array ref frame) as (Hraw & _).
  assert (Har : aref (filled_array jbyte ref (size_of frame) frame) = ref) by reflexivity.
  mred. rewrite !Har, Hraw, Hs, window_whole, Hsize.
  paths. reflexivity.
Qed.


End RoundTrip.

(** ** Frame introspection *)

Lemma data_type_str_table (code : Z) : data_type_str code = data_type_table code.
Proof.
  destruct code as [|p|p]; try reflexivity.
  do 2 (try (destruct p as [p|p|]; try reflexivity)).
Qed.

Lemma info_graph_id_table (code : Z) : fromId (info_graph_id code) = graph_tag_table code.
Proof.
  destruct code as [|p|p]; try reflexivity.
  do 2 (try (destruct p as [p|p|]; try reflexivity)).
Qed.

Lemma info_graph_id_numeric (code : Z) :
  info_graph_id code = (if code =? 2 then 1 else 0).
Proof.
  destruct code as [|p|p]; try reflexivity.
  do 2 (try (destruct p as [p|p|]; try reflexivity)).
Qed.

Section Introspection.

Variable env : JNIEnv.
Variable zl : OpenZL.
Variable cm : Z -> openzl_compressor_t.
Variable dm : Z -> openzl_decompressor_t.


(** C9. [getCompressionInfo] raises the illegal-argument failure for a
    null input and the library failure for an array of length zero; in both
    cases it returns [null] and its log holds the exception alone. *)
Theorem getCompressionInfo_rejects_null_and_empty (data : jarray) :
  FindClass env IllegalArgumentException <> NULL ->
  FindClass env OpenZLException <> NULL ->
  (aref data = NULL ->
   value (get_compression_info env zl cm dm data) = None
   /\ events (get_compression_info env zl cm dm data)
      = [ThrowNew IllegalArgumentException
           "[Error OpenZL JNI] Compressed data cannot be null"]
   /\ raised (events (get_compression_info env zl cm dm data)) = [Some ILLEGAL_ARGUMENT])
  /\ (aref data <> NULL -> alen data = 0 ->
      value (get_compression_info env zl cm dm data) = None
      /\ events (get_compression_info env zl cm dm data)
         = [ThrowNew OpenZLException "[Error OpenZL JNI] Compressed data is empty"]
      /\ raised (events (get_compression_info env zl cm dm data)) = [Some NATIVE_ERROR]).
Proof.
  intros Hiae Hzl. apply is_null_false in Hiae, Hzl. split.
  - intro Hnull. apply is_null_true in Hnull.
    paths. unfold thrown. rewrite Hiae. repeat split; reflexivity.
  - intros Href Hlen. apply is_null_false in Href.
    assert (Hle : (alen data <=? 0) = true) by (rewrite Hlen; reflexivity).
    paths. unfold thrown. rewrite Hzl. repeat split; reflexivity.
Qed.

End Introspection.

(** ** The concrete collaborators meet the assumptions *)

Lemma serial_codec_store : serial_codec zl_store.
Proof.
  intros ctx cap data n frame.
  cbn [zl_store toy_zl ZL_CCtx_compressTypedRef ZL_getDecompressedSize ZL_decompress].
  unfold store_compress, store_decompress. cbn [serial_ref tr_data].
  destruct (size_of data <=? cap) eqn:Hle; intro H; inversion H; subst.
  apply Z.leb_le in Hle. rewrite Z.leb_refl. repeat split; try reflexivity; lia.
Qed.

Lemma never_out_of_memory_ok : never_out_of_memory env_ok libc_ok.
Proof.
  unfold never_out_of_memory, NULL.
  cbn [env_ok toy_env libc_ok GetArrayElements NewArray malloc].
  split; [intros; lia|]. split; [intros; lia|].
  intro n. pose proof (Z.mod_pos_bound (Z.abs n) 1024 ltac:(lia)) as Hn.
  change (2 ^ 64) with 18446744073709551616. lia.
Qed.

Lemma library_opens_store (G : Z) : library_opens zl_store G.
Proof.
  unfold library_opens, open_step_fails, NULL.
  cbn. intuition discriminate.
Qed.

Lemma reports_within_capacity_store : reports_within_capacity zl_store.
Proof.
  intros ctx cap tr n w.
  cbn [zl_store toy_zl ZL_CCtx_compressTypedRef]. unfold store_compress.
  pose proof (size_of_nonneg (tr_data tr)) as Hs.
  destruct (size_of (tr_data tr) <=? cap) eqn:Hcap; intro H; [|discriminate H].
  injection H as <- <-. apply Z.leb_le in Hcap. lia.
Qed.

Lemma many_zeros_size : size_of many_zeros = 2147483600.
Proof.
  unfold many_zeros, size_of. rewrite repeat_length. apply Z2Nat.id. discriminate.
Qed.

(** ** Evaluations *)

(** C1 at a library that refuses the last step of [createCompressor]. *)
Lemma createCompressor_failure_witness :
  value (open_compressor env_ok zl_ref_refused libc_ok no_compressors no_decompressors 3) = 0
  /\ exists pre msg,
       events (open_compressor env_ok zl_ref_refused libc_ok no_compressors no_decompressors 3)
       = pre ++ thrown env_ok OpenZLException msg
       /\ balanced pre
       /\ In (Destroy KCCtx (ZL_CCtx_create zl_ref_refused)) pre
       /\ In (Free (malloc libc_ok (sizeof_openzl_compressor_t libc_ok))) pre
       /\ (ZL_Compressor_create zl_ref_refused <> NULL ->
           In (Destroy KCompressor (ZL_Compressor_create zl_ref_refused)) pre).
Proof.
  apply (createCompressor_failure_releases_everything
           env_ok zl_ref_refused libc_ok no_compressors no_decompressors 3).
  - vm_compute. discriminate.
  - vm_compute. discriminate.
  - right. right. right. right. reflexivity.
Defined.

(** The log of that run. *)
Example createCompressor_failure_log :
  events (open_compressor env_ok zl_ref_refused libc_ok no_compressors no_decompressors 3)
  = [Malloc 24 9728;
     Create KCCtx 16;
     Create KCompressor 32;
     Native (SetParameter 16 ZL_CParam_formatVersion 21);
     Native (SetParameter 16 ZL_CParam_compressionLevel 6);
     Native (SelectStartingGraphID 32 ZL_GRAPH_STORE);
     Native (RefCompressor 16 32);
     Destroy KCompressor 32;
     Destroy KCCtx 16;
     Free 9728;
     ThrowNew OpenZLException "Generic error"].
Proof. reflexivity. Qed.

(** C2 as the data model words it fails where the source cannot be pinned
    and the destination can: the destination is released with
    [JNI_ABORT]. *)
Lemma destination_discarded_when_source_pin_fails :
  ~ (balanced (pins (trace (invoke env_pin1_fails zl_store libc_ok
                              (compress_serial_to_buffer (byte_array 1 hello) 0 5
                                 (byte_array 2 three_ints) 0 12)
                              (value a_compressor) ready)))
     /\ modes_by_role (trace (invoke env_pin1_fails zl_store libc_ok
                                (compress_serial_to_buffer (byte_array 1 hello) 0 5
                                   (byte_array 2 three_ints) 0 12)
                                (value a_compressor) ready)) = true).
Proof.
  intros [_ H]. vm_compute in H. discriminate H.
Qed.

(** The log of that run. *)
Example destination_discarded_log :
  trace (invoke env_pin1_fails zl_store libc_ok
           (compress_serial_to_buffer (byte_array 1 hello) 0 5 (byte_array 2 three_ints) 0 12)
           (value a_compressor) ready)
  = [GetElements Input 1 NULL;
     GetElements Output 2 4098;
     ReleaseElements Output 2 4098 JNI_ABORT;
     ThrowNew OutOfMemoryError "Failed to allocate memory"].
Proof. reflexivity. Qed.

(** C3 at the store library: the code 3 has the Store pipeline passed to the
    descriptor and stored in the record of the handle, and the unknown code
    42 has the ZSTD fallback stored. *)
Lemma createCompressor_selects_witness :
  In (Native (SelectStartingGraphID 32 ZL_GRAPH_STORE))
     (events (open_compressor env_ok zl_store libc_ok no_compressors no_decompressors 3))
  /\ value (open_compressor env_ok zl_store libc_ok no_compressors no_decompressors 3) = 9728
  /\ c_graph_id (compressors
                   (final (open_compressor env_ok zl_store libc_ok
                             no_compressors no_decompressors 3)) 9728)
     = ZL_GRAPH_STORE
  /\ c_graph_id (compressors
                   (final (open_compressor env_ok zl_store libc_ok
                             no_compressors no_decompressors 42)) 9728)
     = ZL_GRAPH_ZSTD.
Proof.
  destruct (createCompressor_selects_by_table env_ok zl_store libc_ok
              no_compressors no_decompressors 3) as (_ & _ & _ & Hreach & Hdone).
  destruct (createCompressor_selects_by_table env_ok zl_store libc_ok
              no_compressors no_decompressors 42) as (_ & _ & _ & _ & Hother).
  assert (Hm : malloc libc_ok (sizeof_openzl_compressor_t libc_ok) <> NULL)
    by (vm_compute; discriminate).
  assert (Hc : ZL_CCtx_create zl_store <> NULL) by (vm_compute; discriminate).
  assert (Hk : ZL_Compressor_create zl_store <> NULL) by (vm_compute; discriminate).
  destruct (Hdone Hm Hc (proj1 (proj2 (library_opens_store 3)))) as (Hv & _ & Hg).
  destruct (Hother Hm Hc (proj1 (proj2 (library_opens_store 42)))) as (_ & _ & Hg').
  split; [exact (Hreach Hm Hc Hk eq_refl eq_refl)|].
  split; [exact Hv|]. split; [exact Hg|exact Hg'].
Defined.

(** C4 at the store library. *)
Lemma zero_handle_witness :
  trace (invoke env_ok zl_store libc_ok
           (decompress_serial_to_buffer (byte_array 1 hello) 0 5 (byte_array 2 three_ints) 0 12)
           0 ready)
  = [ThrowNew OpenZLException "[Error OpenZL JNI] Invalid decompressor"]
  /\ raised (trace (invoke env_ok zl_store libc_ok
                      (decompress_serial_to_buffer (byte_array 1 hello) 0 5
                         (byte_array 2 three_ints) 0 12)
                      0 ready))
     = [Some INVALID_HANDLE]
  /\ ret (invoke env_ok zl_store libc_ok
            (decompress_serial_to_buffer (byte_array 1 hello) 0 5 (byte_array 2 three_ints) 0 12)
            0 ready)
     = RInt (-1).
Proof.
  apply (zero_handle_is_rejected env_ok zl_store libc_ok
           (compressors ready) (decompressors ready)
           (decompress_serial_to_buffer (byte_array 1 hello) 0 5 (byte_array 2 three_ints) 0 12)).
  vm_compute. discriminate.
Defined.

(** C5 as stated fails at the handle -1: [decompressSerial] raises nothing
    and returns the decompressed array. *)
Lemma negative_handle_is_accepted :
  raised (trace (invoke env_ok zl_store libc_ok (decompress_serial (byte_array 1 hello) 0 5)
                   (-1) ready))
  = []
  /\ ret (invoke env_ok zl_store libc_ok (decompress_serial (byte_array 1 hello) 0 5)
            (-1) ready)
     = RArray (Some (byte_array 9000 hello)).
Proof. split; reflexivity. Qed.

(** C5, as the code has it, at the store library. *)
Lemma decompress_checks_zero_only_witness :
  (raised (trace (invoke env_ok zl_store libc_ok (decompress_serial (byte_array 1 hello) 0 5)
                    0 ready))
   = [Some INVALID_HANDLE]
   /\ ret (invoke env_ok zl_store libc_ok (decompress_serial (byte_array 1 hello) 0 5)
             0 ready)
      = sentinel (decompress_serial (byte_array 1 hello) 0 5))
  /\ forall id, id <> 0 ->
       exists rest,
         trace (invoke env_ok zl_store libc_ok (decompress_serial (byte_array 1 hello) 0 5)
                  id ready)
         = GetElements Input (aref (source (decompress_serial (byte_array 1 hello) 0 5)))
             (GetArrayElements env_ok jbyte
                (aref (source (decompress_serial (byte_array 1 hello) 0 5)))) :: rest.
Proof.
  apply (decompress_checks_zero_only env_ok zl_store libc_ok
           (compressors ready) (decompressors ready)
           (decompress_serial (byte_array 1 hello) 0 5)).
  - reflexivity.
  - vm_compute. discriminate.
Defined.





(** C9 at the null reference and at an empty array. *)
Lemma getCompressionInfo_rejects_witness :
  (value (get_compression_info env_ok zl_store no_compressors no_decompressors
            (byte_array NULL [])) = None
   /\ raised (events (get_compression_info env_ok zl_store no_compressors no_decompressors
                        (byte_array NULL []))) = [Some ILLEGAL_ARGUMENT])
  /\ (value (get_compression_info env_ok zl_store no_compressors no_decompressors
               (byte_array 1 [])) = None
      /\ raised (events (get_compression_info env_ok zl_store no_compressors no_decompressors
                           (byte_array 1 []))) = [Some NATIVE_ERROR]).
Proof.
  assert (Hiae : FindClass env_ok IllegalArgumentException <> NULL) by (vm_compute; discriminate).
  assert (Hzl : FindClass env_ok OpenZLException <> NULL) by (vm_compute; discriminate).
  split.
  - destruct (getCompressionInfo_rejects_null_and_empty env_ok zl_store
                no_compressors no_decompressors (byte_array NULL []) Hiae Hzl) as [Hnull _].
    destruct (Hnull eq_refl) as (Hv & _ & Hr). split; assumption.
  - destruct (getCompressionInfo_rejects_null_and_empty env_ok zl_store
                no_compressors no_decompressors (byte_array 1 []) Hiae Hzl) as [_ Hempty].
    assert (Href : aref (byte_array 1 []) <> NULL) by (vm_compute; discriminate).
    destruct (Hempty Href eq_refl) as (Hv & _ & Hr). split; assumption.
Defined.

(** C10. [decompressNumericLongs] on a frame that holds three 4-byte
    elements: the scratch block has the 12 bytes of the size query, the
    library reports three elements, and the copy into the managed [long]
    array reads 24 bytes out of the block.  [decompressNumericInts] on the
    same frame stays inside it. *)
Theorem decompressNumericLongs_reads_past_scratch :
  trace (invoke env_ok zl_store libc_ok (decompress_numeric I64 (byte_array 1 three_ints))
           (value a_decompressor) ready)
  = [GetElements Input 1 4097;
     Native (GetDecompressedSize 4097 12);
     Malloc 12 8960;
     Native (DecompressTyped 48 8960 12 4097 12);
     ReleaseElements Input 1 4097 JNI_ABORT;
     NewArrayCall jlong 3 9000;
     SetArrayRegion jlong 9000 0 3 8960;
     Free 8960]
  /\ copies_within_blocks
       (trace (invoke env_ok zl_store libc_ok (decompress_numeric I64 (byte_array 1 three_ints))
                 (value a_decompressor) ready))
     = false
  /\ copies_within_blocks
       (trace (invoke env_ok zl_store libc_ok (decompress_numeric I32 (byte_array 1 three_ints))
                 (value a_decompressor) ready))
     = true.
Proof. repeat split; reflexivity. Qed.

(** ** Every operation, every path *)

Ltac each_operation op :=
  destruct op as [src off len|src off len dst dst_off max_len|ty data
                 |src off len|src off len dst dst_off max_len|ty src];
  try destruct ty.

Section Discipline.

Variable env : JNIEnv.
Variable zl : OpenZL.
Variable libc : Libc.
Variable cm : Z -> openzl_compressor_t.
Variable dm : Z -> openzl_decompressor_t.

(** X1. No native resource outlives a compress or decompress operation:
    on every control path the scratch block, the typed reference and the
    pinned regions that were handed out are all given back, once each. *)
Theorem operations_leave_nothing_live (op : operation) (id : Z) :
  balanced (trace (invoke env zl libc op id (start cm dm))).
Proof.
  each_operation op; paths; unfold thrown; settle.
  all: replay.
Qed.

(** X2. An operation raises at most once and does nothing afterwards, and
    whenever it raises it returns its sentinel. *)
Theorem operations_raise_last_and_return_sentinel (op : operation) (id : Z) :
  throw_is_last (trace (invoke env zl libc op id (start cm dm))) = true
  /\ (raised (trace (invoke env zl libc op id (start cm dm))) <> [] ->
      ret (invoke env zl libc op id (start cm dm)) = sentinel op).
Proof.
  each_operation op; paths; unfold thrown; settle.
  all: split; [reflexivity|].
  all: cbn [raised]; intro H; try reflexivity; exfalso; apply H; reflexivity.
Qed.

(** X3. An operation that builds an array never returns [null] silently:
    when the exception classes can be found, a [null] result comes with a
    raised exception. *)
Theorem null_result_comes_with_exception (op : operation) (id : Z) :
  FindClass env OpenZLException <> NULL ->
  FindClass env OutOfMemoryError <> NULL ->
  ret (invoke env zl libc op id (start cm dm)) = RArray None ->
  raised (trace (invoke env zl libc op id (start cm dm))) <> [].
Proof.
  intros Hzl Hoom. apply is_null_false in Hzl, Hoom.
  each_operation op; paths; unfold thrown; rewrite ?Hzl, ?Hoom.
  all: cbn [raised]; intro H; try discriminate H.
  all: discriminate.
Qed.

(** X4. The two operations that fill a caller's buffer allocate no native
    memory and never ask the frame for its decompressed size. *)
Theorem to_buffer_operations_never_allocate (op : operation) (id : Z) :
  is_to_buffer op = true ->
  existsb is_malloc (trace (invoke env zl libc op id (start cm dm))) = false
  /\ existsb is_size_query (trace (invoke env zl libc op id (start cm dm))) = false.
Proof.
  intro Hop. each_operation op; try discriminate Hop.
  all: paths; unfold thrown; settle.
  all: split; reflexivity.
Qed.

End Discipline.

(** X5. The serial decompress operations use nothing of their handle but
    its being nonzero: two nonzero handles, over any native memory, give
    the same log and the same result. *)
Theorem serial_decompress_ignores_handle
    (env : JNIEnv) (zl : OpenZL) (libc : Libc)
    (cm cm' : Z -> openzl_compressor_t) (dm dm' : Z -> openzl_decompressor_t)
    (op : operation) (id id' : Z) :
  match op with
  | decompress_serial _ _ _ | decompress_serial_to_buffer _ _ _ _ _ _ => True
  | _ => False
  end ->
  id <> 0 -> id' <> 0 ->
  invoke env zl libc op id (start cm dm) = invoke env zl libc op id' (start cm' dm').
Proof.
  intros Hop Hid Hid'. apply Z.eqb_neq in Hid, Hid'.
  each_operation op; try contradiction.
  all: paths; reflexivity.
Qed.

(** ** The life of a handle *)

Lemma track_app (t u : list event) (live live' : list resource) :
  track live t = Some live' -> track live (t ++ u) = track live' u.
Proof.
  revert live. induction t as [|e t IH]; intros live H; cbn [app track] in *.
  - injection H as <-. reflexivity.
  - destruct (acquired e); [apply IH; exact H|].
    destruct (released e); [|apply IH; exact H].
    destruct (remove1 r live); [apply IH; exact H|discriminate H].
Qed.

Section HandleLife.

Variable env : JNIEnv.
Variable zl : OpenZL.
Variable libc : Libc.
Variable cm : Z -> openzl_compressor_t.
Variable dm : Z -> openzl_decompressor_t.

(** What a successful [createCompressor] leaves behind. *)
Lemma open_compressor_state (g : Z) :
  malloc libc (sizeof_openzl_compressor_t libc) <> NULL ->
  ZL_CCtx_create zl <> NULL ->
  ~ open_step_fails zl g ->
  let p := malloc libc (sizeof_openzl_compressor_t libc) in
  let opened := open_compressor env zl libc cm dm g in
  value opened = to_jlong (to_uintptr_t p)
  /\ track [] (events opened)
     = Some [RObj KCompressor (ZL_Compressor_create zl);
             RObj KCCtx (ZL_CCtx_create zl);
             RBlock p]
  /\ raised (events opened) = []
  /\ compressors (final opened) p
     = {| c_ctx := ZL_CCtx_create zl;
          c_compressor := ZL_Compressor_create zl;
          c_graph_id := selected_graph g |}.
Proof.
  intros Hm Hc Hsteps p opened. subst p opened.
  apply is_null_false in Hm, Hc.
  paths.
  all: try (exfalso; apply Hsteps; unfold open_step_fails;
            repeat match goal with H : is_null _ = true |- _ => apply Z.eqb_eq in H end;
            tauto).
  split; [reflexivity|]. split; [replay|]. split; reflexivity.
Qed.

(** What [destroyCompressor] logs on a handle whose record holds a
    descriptor and a context. *)
Lemma destroyCompressor_run (cm' : Z -> openzl_compressor_t)
    (dm' : Z -> openzl_decompressor_t) (p : Z) (c : openzl_compressor_t) :
  0 < p < 2 ^ 64 ->
  cm' p = c ->
  c_compressor c <> NULL ->
  c_ctx c <> NULL ->
  events (run (Java_net_openzl_OpenZLJNI_destroyCompressor (to_jlong (to_uintptr_t p)))
            (start cm' dm'))
  = [Destroy KCompressor (c_compressor c); Destroy KCCtx (c_ctx c); Free p].
Proof.
  intros Hp Hrec Hk Hc.
  destruct (handle_round_trip _ Hp) as (Hback & Hnz).
  apply Z.eqb_neq in Hnz. apply is_null_false in Hk, Hc.
  mred. rewrite Hnz. mred. rewrite Hback, Hrec, Hk, Hc. mred.
  reflexivity.
Qed.

(** X6. When no step of [createCompressor] fails, the handle it returns
    is the address of the record, nothing has been given back, and the
    record holds the context, the descriptor and the selected graph. *)
Theorem createCompressor_success (g : Z) :
  malloc libc (sizeof_openzl_compressor_t libc) <> NULL ->
  ZL_CCtx_create zl <> NULL ->
  ~ open_step_fails zl g ->
  let p := malloc libc (sizeof_openzl_compressor_t libc) in
  let opened := open_compressor env zl libc cm dm g in
  value opened = to_jlong (to_uintptr_t p)
  /\ track [] (events opened)
     = Some [RObj KCompressor (ZL_Compressor_create zl);
             RObj KCCtx (ZL_CCtx_create zl);
             RBlock p]
  /\ raised (events opened) = []
  /\ compressors (final opened) p
     = {| c_ctx := ZL_CCtx_create zl;
          c_compressor := ZL_Compressor_create zl;
          c_graph_id := selected_graph g |}.
Proof.
  intros Hm Hc Hsteps p opened. subst p opened.
  apply is_null_false in Hm, Hc.
  paths.
  all: try (exfalso; apply Hsteps; unfold open_step_fails;
            repeat match goal with H : is_null _ = true |- _ => apply Z.eqb_eq in H end;
            tauto).
  split; [reflexivity|]. split; [replay|]. split; reflexivity.
Qed.

(** X7. [destroyCompressor] on the handle of a successful
    [createCompressor] frees the descriptor, then the context, then the
    record, so that the two logs together leave nothing live. *)
Theorem createCompressor_then_destroyCompressor (g : Z) :
  0 < malloc libc (sizeof_openzl_compressor_t libc) < 2 ^ 64 ->
  ZL_CCtx_create zl <> NULL ->
  ~ open_step_fails zl g ->
  let p := malloc libc (sizeof_openzl_compressor_t libc) in
  let opened := open_compressor env zl libc cm dm g in
  let closed := run_after (Java_net_openzl_OpenZLJNI_destroyCompressor (value opened)) opened in
  events closed = [Destroy KCompressor (ZL_Compressor_create zl);
                   Destroy KCCtx (ZL_CCtx_create zl);
                   Free p]
  /\ balanced (events opened ++ events closed).
Proof.
  intros Hp Hc Hsteps p opened closed.
  assert (Hm : malloc libc (sizeof_openzl_compressor_t libc) <> NULL) by (unfold NULL; lia).
  destruct (open_compressor_state g Hm Hc Hsteps) as (Hv & Hlive & _ & Hrec).
  fold p opened in Hv, Hlive, Hrec.
  assert (Hk : ZL_Compressor_create zl <> NULL).
  { intro Hk. apply Hsteps. left. exact Hk. }
  pose proof (destroyCompressor_run (compressors (final opened))
                (decompressors (final opened)) p _ Hp Hrec Hk Hc) as Hev.
  cbn [c_compressor c_ctx] in Hev.
  assert (Hev' : events closed = [Destroy KCompressor (ZL_Compressor_create zl);
                                  Destroy KCCtx (ZL_CCtx_create zl);
                                  Free p]).
  { subst closed. unfold run_after. rewrite Hv. exact Hev. }
  split; [exact Hev'|].
  rewrite Hev'. unfold balanced.
  apply is_null_false in Hk, Hc.
  rewrite (track_app _ _ _ _ Hlive). replay.
Qed.

(** X8. [destroyCompressor] guards against nothing but the zero handle:
    after a create and a destroy, which together leave nothing live, the
    handle still passes the test, and the first call of a second
    [destroyCompressor] on it, whatever the freed record now holds, is a
    release of something that is no longer live. *)
Theorem destroyCompressor_twice_releases_dead_resource
    (g : Z) (cm' : Z -> openzl_compressor_t) (dm' : Z -> openzl_decompressor_t) :
  0 < malloc libc (sizeof_openzl_compressor_t libc) < 2 ^ 64 ->
  ZL_CCtx_create zl <> NULL ->
  ~ open_step_fails zl g ->
  let p := malloc libc (sizeof_openzl_compressor_t libc) in
  let opened := open_compressor env zl libc cm dm g in
  let closed := run_after (Java_net_openzl_OpenZLJNI_destroyCompressor (value opened)) opened in
  let again := run (Java_net_openzl_OpenZLJNI_destroyCompressor (value opened))
                 (start cm' dm') in
  value opened <> 0
  /\ balanced (events opened ++ events closed)
  /\ (exists e rest, events again = e :: rest /\ released e <> None)
  /\ track [] (events opened ++ events closed ++ events again) = None.
Proof.
  intros Hp Hc Hsteps p opened closed again.
  assert (Hm : malloc libc (sizeof_openzl_compressor_t libc) <> NULL) by (unfold NULL; lia).
  destruct (open_compressor_state g Hm Hc Hsteps) as (Hv & Hlive & _ & Hrec).
  fold p opened in Hv, Hlive, Hrec.
  assert (Hk : ZL_Compressor_create zl <> NULL).
  { intro Hk. apply Hsteps. left. exact Hk. }
  destruct (handle_round_trip _ Hp) as (Hback & Hnz). fold p in Hback, Hnz.
  pose proof (destroyCompressor_run (compressors (final opened))
                (decompressors (final opened)) p _ Hp Hrec Hk Hc) as Hev.
  cbn [c_compressor c_ctx] in Hev.
  assert (Hev1 : events closed = [Destroy KCompressor (ZL_Compressor_create zl);
                                  Destroy KCCtx (ZL_CCtx_create zl);
                                  Free p]).
  { subst closed. unfold run_after. rewrite Hv. exact Hev. }
  assert (Hlive2 : track [] (events opened ++ events closed) = Some []).
  { rewrite Hev1. apply is_null_false in Hk, Hc.
    rewrite (track_app _ _ _ _ Hlive). replay. }
  split; [rewrite Hv; exact Hnz|].
  split; [exact Hlive2|].
  assert (Hagain :
    events again
    = (if is_null (c_compressor (cm' p)) then []
       else [Destroy KCompressor (c_compressor (cm' p))])
      ++ (if is_null (c_ctx (cm' p)) then [] else [Destroy KCCtx (c_ctx (cm' p))])
      ++ [Free p]).
  { subst again. rewrite Hv. apply Z.eqb_neq in Hnz.
    mred. rewrite Hnz. mred. rewrite Hback.
    destruct (is_null (c_compressor (cm' p))); destruct (is_null (c_ctx (cm' p)));
      mred; reflexivity. }
  rewrite app_assoc, Hagain. rewrite (track_app _ _ _ _ Hlive2).
  destruct (is_null (c_compressor (cm' p))); destruct (is_null (c_ctx (cm' p)));
    cbn [app].
  all: split; [eexists; eexists; split; [reflexivity|cbn [released]; discriminate]|].
  all: reflexivity.
Qed.

(** X9. When [createCompressor] fails before the context exists, it
    returns 0 with nothing left live and without having configured
    anything; when it is [malloc] that fails, the library is not called at
    all. *)
Theorem createCompressor_early_failure (g : Z) :
  malloc libc (sizeof_openzl_compressor_t libc) = NULL \/ ZL_CCtx_create zl = NULL ->
  let opened := open_compressor env zl libc cm dm g in
  value opened = 0
  /\ balanced (events opened)
  /\ existsb is_codec_or_config_call (events opened) = false
  /\ (malloc libc (sizeof_openzl_compressor_t libc) = NULL ->
      events opened
      = Malloc (sizeof_openzl_compressor_t libc) NULL
          :: thrown env OutOfMemoryError "Failed to allocate memory").
Proof.
  intros Hfail opened. subst opened.
  destruct (is_null (malloc libc (sizeof_openzl_compressor_t libc))) eqn:Hm.
  - paths. apply Z.eqb_eq in Hm. rewrite Hm.
    unfold thrown; settle; repeat split; try reflexivity.
  - destruct Hfail as [Hfail|Hfail]; [apply is_null_true in Hfail; congruence|].
    apply is_null_true in Hfail.
    paths. unfold thrown; settle.
    all: split; [reflexivity|]; split; [replay|]; split; [reflexivity|].
    all: intro H; apply is_null_true in H; congruence.
Qed.

(** The outcomes of [createDecompressor]. *)
Lemma open_decompressor_state :
  let p := malloc libc (sizeof_openzl_decompressor_t libc) in
  let opened := open_decompressor env zl libc cm dm in
  (p = NULL \/ ZL_DCtx_create zl = NULL ->
   value opened = 0 /\ balanced (events opened))
  /\ (p <> NULL -> ZL_DCtx_create zl <> NULL ->
      value opened = to_jlong (to_uintptr_t p)
      /\ events opened = [Malloc (sizeof_openzl_decompressor_t libc) p;
                          Create KDCtx (ZL_DCtx_create zl)]
      /\ d_ctx (decompressors (final opened) p) = ZL_DCtx_create zl).
Proof.
  intros p opened. subst p opened. split.
  - intros [H|H]; apply is_null_true in H.
    + paths. unfold thrown; settle; split; try reflexivity; replay.
    + paths; unfold thrown; settle; split; try reflexivity; replay.
  - intros Hp Hd. apply is_null_false in Hp, Hd.
    paths. repeat split; reflexivity.
Qed.

(** X10. [createDecompressor] returns 0 with nothing left live when
    [malloc] or the creation of the context fails, and otherwise returns
    the address of a record that holds the context. *)
Theorem createDecompressor_outcomes :
  let p := malloc libc (sizeof_openzl_decompressor_t libc) in
  let opened := open_decompressor env zl libc cm dm in
  (p = NULL \/ ZL_DCtx_create zl = NULL ->
   value opened = 0 /\ balanced (events opened))
  /\ (p <> NULL -> ZL_DCtx_create zl <> NULL ->
      value opened = to_jlong (to_uintptr_t p)
      /\ events opened = [Malloc (sizeof_openzl_decompressor_t libc) p;
                          Create KDCtx (ZL_DCtx_create zl)]
      /\ d_ctx (decompressors (final opened) p) = ZL_DCtx_create zl).
Proof.
  intros p opened. subst p opened. split.
  - intros [H|H]; apply is_null_true in H.
    + paths. unfold thrown; settle; split; try reflexivity; replay.
    + paths; unfold thrown; settle; split; try reflexivity; replay.
  - intros Hp Hd. apply is_null_false in Hp, Hd.
    paths. repeat split; reflexivity.
Qed.

(** X11. [destroyDecompressor] on the handle of a successful
    [createDecompressor] frees the context, then the record, so that the
    two logs together leave nothing live. *)
Theorem createDecompressor_then_destroyDecompressor :
  0 < malloc libc (sizeof_openzl_decompressor_t libc) < 2 ^ 64 ->
  ZL_DCtx_create zl <> NULL ->
  let p := malloc libc (sizeof_openzl_decompressor_t libc) in
  let opened := open_decompressor env zl libc cm dm in
  let closed := run_after (Java_net_openzl_OpenZLJNI_destroyDecompressor (value opened)) opened in
  events closed = [Destroy KDCtx (ZL_DCtx_create zl); Free p]
  /\ balanced (events opened ++ events closed).
Proof.
  intros Hp Hd p opened closed.
  assert (Hm : malloc libc (sizeof_openzl_decompressor_t libc) <> NULL) by (unfold NULL; lia).
  destruct open_decompressor_state as (_ & Hok).
  destruct (Hok Hm Hd) as (Hv & Hopen & Hrec).
  destruct (handle_round_trip _ Hp) as (Hback & Hnz).
  fold p opened in Hv, Hopen, Hrec, Hback, Hnz.
  pose proof Hd as Hd'. apply is_null_false in Hd'.
  assert (Hev : events closed = [Destroy KDCtx (ZL_DCtx_create zl); Free p]).
  { subst closed. unfold run_after. rewrite Hv.
    set (cm' := compressors (final opened)) in *.
    set (dm' := decompressors (final opened)) in *.
    clearbody cm' dm'.
    apply Z.eqb_neq in Hnz. mred. rewrite Hnz. mred. rewrite Hback, Hrec.
    rewrite Hd'. mred. reflexivity. }
  split; [exact Hev|].
  rewrite Hev, Hopen. apply is_null_false in Hm. fold p in Hm.
  cbn [app]. replay.
Qed.

End HandleLife.

(** ** What the operations return *)

Lemma to_jsize_below (n : Z) : 0 <= n -> to_jsize n <= n.
Proof.
  intro Hn. unfold to_jsize, wrap_signed.
  change (2 ^ (32 - 1)) with 2147483648. change (2 ^ 32) with 4294967296.
  pose proof (Z.mod_pos_bound (n + 2147483648) 4294967296 ltac:(lia)) as Hb.
  destruct (Z_lt_le_dec n 2147483648) as [Hs|Hl].
  - rewrite Z.mod_small; lia.
  - lia.
Qed.

(** Writes the element widths out. *)
Ltac widths :=
  change (sizeof jbyte) with 1 in *;
  change (sizeof jint) with 4 in *;
  change (sizeof jlong) with 8 in *;
  change (sizeof jfloat) with 4 in *;
  change (sizeof jdouble) with 8 in *.

Section Returns.

Variable env : JNIEnv.
Variable zl : OpenZL.
Variable libc : Libc.
Variable cm : Z -> openzl_compressor_t.
Variable dm : Z -> openzl_decompressor_t.

(** X12. When a compress operation reaches the library and the library
    reports the size [n], the operation raises nothing and returns [n]:
    as the length of a new byte array that holds what the library wrote,
    or as the integer result of the variant that fills a buffer. *)
Theorem compress_returns_reported_size
    (op : operation) (id cap n : Z) (tr : TypedRef) (w : bytes) :
  compress_request zl op = Some (cap, tr) ->
  existsb is_codec_call (trace (invoke env zl libc op id (start cm dm))) = true ->
  ZL_CCtx_compressTypedRef zl (c_ctx (cm (to_uintptr_t id))) cap tr = (ZL_returnValue n, w) ->
  0 <= n <= INT_MAX ->
  NewArray env jbyte n <> NULL ->
  raised (trace (invoke env zl libc op id (start cm dm))) = []
  /\ ret (invoke env zl libc op id (start cm dm))
     = (if is_to_buffer op then RInt n
        else RArray (Some (filled_array jbyte (NewArray env jbyte n) n w))).
Proof.
  intros Hreq Hreach Hnative Hn Hnew.
  assert (Hjs : to_jsize n = n) by (apply to_jsize_small; exact Hn).
  assert (Hji : to_jint n = n) by (apply to_jint_small; exact Hn).
  apply is_null_false in Hnew.
  each_operation op; try discriminate Hreq;
    cbn [compress_request jtype_of] in Hreq; injection Hreq as <- <-.
  all: cbn [is_to_buffer]; revert Hreach; mred; widths; paths; unfold thrown; settle; intro Hreach;
    try discriminate Hreach.
  all: rewrite ?Hji; split; reflexivity.
Qed.

(** X13. When a compress operation reaches the library and the library
    reports the error code [c], the operation returns its sentinel, and
    its log is a balanced prefix followed by the binding's exception with
    the library's text for [c]. *)
Theorem compress_failure_carries_library_message
    (op : operation) (id cap c : Z) (tr : TypedRef) (w : bytes) :
  compress_request zl op = Some (cap, tr) ->
  existsb is_codec_call (trace (invoke env zl libc op id (start cm dm))) = true ->
  ZL_CCtx_compressTypedRef zl (c_ctx (cm (to_uintptr_t id))) cap tr = (ZL_returnError c, w) ->
  ret (invoke env zl libc op id (start cm dm)) = sentinel op
  /\ exists pre,
       trace (invoke env zl libc op id (start cm dm))
       = pre ++ thrown env OpenZLException (ZL_ErrorCode_toString zl c)
       /\ balanced pre.
Proof.
  intros Hreq Hreach Hnative.
  each_operation op; try discriminate Hreq;
    cbn [compress_request jtype_of] in Hreq; injection Hreq as <- <-.
  all: revert Hreach; mred; widths; paths; intro Hreach;
    try (unfold thrown in Hreach; revert Hreach; settle; intro Hreach;
         discriminate Hreach).
  all: split; [reflexivity|].
  all: match goal with
       | |- exists pre, ?l = _ /\ _ => let p := before_throw l in exists p
       end.
  all: split; [reflexivity|replay].
Qed.

(** X14. With a library that never reports more than the capacity it was
    given, no operation that builds a byte array reads past its scratch
    block when it copies the result out. *)
Theorem byte_results_copied_within_scratch (op : operation) (id : Z) :
  respects_capacity zl ->
  builds_byte_array op = true ->
  copies_within_blocks (trace (invoke env zl libc op id (start cm dm))) = true.
Proof.
  intros [Hc Hd] Hop.
  each_operation op; try discriminate Hop.
  all: paths; unfold thrown; settle; try reflexivity.
  all: widths; cbn [copies_within_blocks forallb block_size andb];
    rewrite Z.eqb_refl, Z.mul_1_r, andb_true_r.
  all: match goal with
       | |- context [ZL_CCtx_compressTypedRef ?a ?b ?c ?d] =>
           destruct (ZL_CCtx_compressTypedRef a b c d) as [r w] eqn:Hx
       | |- context [ZL_decompress ?a ?b ?c ?d] =>
           destruct (ZL_decompress a b c d) as [r w] eqn:Hx
       end;
    repeat match goal with
           | H : ZL_isError _ = _ |- _ => rewrite Hx in H; cbn [ZL_isError] in H
           end;
    destruct r as [n|c]; try discriminate; cbn [ZL_validResult].
  all: first [apply Hc in Hx | apply Hd in Hx].
  all: apply Z.leb_le; pose proof (to_jsize_below n ltac:(lia)); lia.
Qed.

(** X15. A typed decompress that reaches the copy returns an array of
    [numElts] elements of its own element type, and the copy stays inside
    the scratch block exactly when [numElts] times the width of that type
    is at most the size the frame was queried for. *)
Theorem typed_decompress_result_and_copy
    (ty : numeric) (src : jarray) (id size r : Z) (info : ZL_OutputInfo) (w : bytes) :
  id <> 0 ->
  GetArrayElements env jbyte (aref src) <> NULL ->
  ZL_getDecompressedSize zl (araw src) (to_size_t (alen src)) = ZL_returnValue size ->
  malloc libc size <> NULL ->
  ZL_DCtx_decompressTyped zl (d_ctx (dm (to_uintptr_t id))) size
    (araw src) (to_size_t (alen src))
  = (ZL_returnValue r, info, w) ->
  NewArray env (jtype_of ty) (to_jsize (numElts info)) <> NULL ->
  ret (invoke env zl libc (decompress_numeric ty src) id (start cm dm))
  = RArray (Some (filled_array (jtype_of ty)
                    (NewArray env (jtype_of ty) (to_jsize (numElts info)))
                    (to_jsize (numElts info)) w))
  /\ copies_within_blocks (trace (invoke env zl libc (decompress_numeric ty src) id
                                    (start cm dm)))
     = (to_jsize (numElts info) * sizeof (jtype_of ty) <=? size).
Proof.
  intros Hid Hpin Hsize Hm Htyped Hnew.
  apply Z.eqb_neq in Hid. apply is_null_false in Hpin, Hm, Hnew.
  destruct ty; cbn [jtype_of] in *.
  all: mred; rewrite Hid; mred; rewrite Hpin; mred; rewrite Hsize;
    cbn [ZL_isError ZL_validResult]; mred; rewrite Hm; mred; rewrite Htyped;
    cbn [ZL_isError ZL_validResult]; mred; rewrite Hnew; mred.
  all: split; [reflexivity|].
  all: cbn [copies_within_blocks forallb block_size andb];
    rewrite Z.eqb_refl, andb_true_r; reflexivity.
Qed.

End Returns.

(** ** Composing the operations *)

Section Composition.

Variable env : JNIEnv.
Variable zl : OpenZL.
Variable libc : Libc.
Variable cm : Z -> openzl_compressor_t.
Variable dm : Z -> openzl_decompressor_t.

(** X16. Given a destination whose capacity is the compress bound of the
    window, [compressSerialToBuffer] returns the length of the array that
    [compressSerial] returns for the same window and handle. *)
Theorem compressSerialToBuffer_agrees_with_compressSerial
    (id : Z) (src : jarray) (off len : Z) (dst : jarray) (dst_off max_len n : Z) (w : bytes) :
  id <> 0 ->
  GetArrayElements env jbyte (aref src) <> NULL ->
  GetArrayElements env jbyte (aref dst) <> NULL ->
  malloc libc (ZL_compressBound zl (to_size_t len)) <> NULL ->
  ZL_TypedRef_createSerial zl (window (araw src) off len) (to_size_t len) <> NULL ->
  to_size_t max_len = ZL_compressBound zl (to_size_t len) ->
  ZL_CCtx_compressTypedRef zl (c_ctx (cm (to_uintptr_t id)))
    (ZL_compressBound zl (to_size_t len))
    (serial_ref (window (araw src) off len) (to_size_t len))
  = (ZL_returnValue n, w) ->
  0 <= n <= INT_MAX ->
  NewArray env jbyte n <> NULL ->
  exists a,
    ret (invoke env zl libc (compress_serial src off len) id (start cm dm))
    = RArray (Some a)
    /\ ret (invoke env zl libc (compress_serial_to_buffer src off len dst dst_off max_len)
              id (start cm dm))
       = RInt (alen a).
Proof.
  intros Hid Hsrc Hdst Hm Htr Hcap Hnative Hn Hnew.
  assert (Hjs : to_jsize n = n) by (apply to_jsize_small; exact Hn).
  assert (Hji : to_jint n = n) by (apply to_jint_small; exact Hn).
  apply Z.eqb_neq in Hid. apply is_null_false in Hsrc, Hdst, Hm, Htr, Hnew.
  eexists. split.
  - paths. reflexivity.
  - mred. rewrite Hcap. paths. cbn [filled_array alen]. rewrite Hji. reflexivity.
Qed.

(** X17. When the size query of a decompress operation fails with the
    code [c], the operation returns [null] without having allocated
    anything, and its log is a balanced prefix followed by the binding's
    exception with the library's text for [c]. *)
Theorem size_query_failure_allocates_nothing
    (op : operation) (id c size : Z) (frame : bytes) :
  size_query op = Some (frame, size) ->
  id <> 0 ->
  GetArrayElements env jbyte (aref (source op)) <> NULL ->
  ZL_getDecompressedSize zl frame size = ZL_returnError c ->
  ret (invoke env zl libc op id (start cm dm)) = RArray None
  /\ existsb is_malloc (trace (invoke env zl libc op id (start cm dm))) = false
  /\ exists pre,
       trace (invoke env zl libc op id (start cm dm))
       = pre ++ thrown env OpenZLException (ZL_ErrorCode_toString zl c)
       /\ balanced pre.
Proof.
  intros Hq Hid Hpin Hsize.
  apply Z.eqb_neq in Hid.
  each_operation op; try discriminate Hq;
    cbn [size_query] in Hq; injection Hq as <- <-;
    cbn [source] in Hpin; apply is_null_false in Hpin.
  all: mred; rewrite Hid; mred; rewrite Hpin; mred; rewrite Hsize;
    cbn [ZL_isError ZL_errorCode]; mred; rewrite ?throw_exception_run; mred.
  all: split; [reflexivity|].
  all: split;
    [ unfold thrown; destruct (is_null (FindClass env OpenZLException)); reflexivity | ].
  all: match goal with
       | |- exists pre, ?l = _ /\ _ => let p := before_throw l in exists p
       end.
  all: split; [reflexivity|replay].
Qed.

(** X18. Compressing a numeric array and decompressing the result with
    the operation of the same element type yields an array of the same
    length over the same bytes.  The library is taken to be a codec for
    numeric data that compresses the array; pins and allocations are taken
    to succeed, and the sizes to be Java ints. *)
Theorem numeric_round_trip
    (ty : numeric) (id did ref count n : Z) (data frame : bytes) :
  numeric_codec zl (sizeof (jtype_of ty)) ->
  never_out_of_memory env libc ->
  (forall d wd c, ZL_TypedRef_createNumeric zl d wd c <> NULL) ->
  id <> 0 -> did <> 0 -> ref <> NULL ->
  0 <= count <= INT_MAX ->
  size_of data = count * sizeof (jtype_of ty) ->
  ZL_compressBound zl (size_of data) <= INT_MAX ->
  ZL_CCtx_compressTypedRef zl (c_ctx (cm (to_uintptr_t id)))
    (ZL_compressBound zl (size_of data))
    (numeric_ref data (sizeof (jtype_of ty)) count)
  = (ZL_returnValue n, frame) ->
  exists C,
    ret (invoke env zl libc (compress_numeric ty (typed_array ref count data)) id
           (start cm dm)) = RArray (Some C)
    /\ exists D,
         ret (invoke env zl libc (decompress_numeric ty C) did (start cm dm))
         = RArray (Some D)
         /\ alen D = count
         /\ araw D = data.
Proof.
  intros Hcodec (Hpin & Hnew & Hmalloc) Htr Hid Hdid Href Hcount Hdata Hfit Hnative.
  destruct (Hcodec _ (d_ctx (dm (to_uintptr_t did))) _ _ _ _ _ Hdata Hnative)
    as (Hsize & Hcap & Hdsize & Hdec).
  pose proof (size_of_nonneg data) as Hd0.
  pose proof (size_of_nonneg frame) as Hf0.
  assert (Hn : 0 <= n <= INT_MAX) by lia.
  assert (Hjs : to_jsize n = n) by (apply to_jsize_small; exact Hn).
  assert (Hjc : to_jsize count = count) by (apply to_jsize_small; exact Hcount).
  assert (Hsc : to_size_t count = count) by (apply to_size_t_small; exact Hcount).
  assert (Hsn : to_size_t n = n) by (apply to_size_t_small; exact Hn).
  assert (Hsd : to_size_t (count * sizeof (jtype_of ty)) = size_of data).
  { rewrite <- Hdata. unfold to_size_t, wrap_unsigned.
    apply Z.mod_small. unfold INT_MAX in *.
    change (2 ^ 31 - 1) with 2147483647 in *.
    change (2 ^ 64) with 18446744073709551616.
    assert (sizeof (jtype_of ty) <= 8) by (destruct ty; cbn; lia).
    assert (0 < sizeof (jtype_of ty)) by (destruct ty; cbn; lia).
    nia. }
  apply Z.eqb_neq in Hid, Hdid.
  assert (Hp1 : is_null (GetArrayElements env (jtype_of ty) ref) = false).
  { apply is_null_false. apply Hpin. exact Href. }
  assert (Hm1 : is_null (malloc libc (ZL_compressBound zl (size_of data))) = false).
  { apply is_null_false. unfold NULL.
    specialize (Hmalloc (ZL_compressBound zl (size_of data))). lia. }
  assert (Ht1 : is_null (ZL_TypedRef_createNumeric zl data (sizeof (jtype_of ty)) count)
                = false).
  { apply is_null_false. apply Htr. }
  assert (Hn1 : is_null (NewArray env jbyte n) = false).
  { apply is_null_false. apply Hnew. }
  assert (Hp2 : is_null (GetArrayElements env jbyte (NewArray env jbyte n)) = false).
  { apply is_null_false. apply Hpin. apply Hnew. }
  assert (Hm2 : is_null (malloc libc (size_of data)) = false).
  { apply is_null_false. unfold NULL. specialize (Hmalloc (size_of data)). lia. }
  assert (Hn2 : is_null (NewArray env (jtype_of ty) count) = false).
  { apply is_null_false. apply Hnew. }
  assert (Hraw : araw (filled_array jbyte (NewArray env jbyte n) n frame) = frame).
  { rewrite <- Hsize. apply filled_byte_array. }
  exists (filled_array jbyte (NewArray env jbyte n) n frame). split.
  - destruct ty; cbn [jtype_of] in *;
      mred; cbn [typed_array aref alen araw];
      rewrite Hid; mred; rewrite Hp1; mred; rewrite Hsc, Hsd, Hm1; mred;
      rewrite Ht1; mred; rewrite Hnative; cbn [ZL_isError ZL_validResult]; mred;
      rewrite Hjs, Hn1; mred; reflexivity.
  - exists (filled_array (jtype_of ty) (NewArray env (jtype_of ty) count) count data).
    split.
    + assert (Har : aref (filled_array jbyte (NewArray env jbyte n) n frame)
                    = NewArray env jbyte n) by reflexivity.
      assert (Hal : alen (filled_array jbyte (NewArray env jbyte n) n frame) = n)
        by reflexivity.
      destruct ty; cbn [jtype_of] in *;
        mred; rewrite Hdid; mred; rewrite !Har, !Hal, !Hraw, Hp2; mred;
        rewrite Hsn, Hdsize; cbn [ZL_isError ZL_validResult]; mred;
        rewrite Hm2; mred; rewrite Hdec; cbn [ZL_isError ZL_validResult numElts]; mred;
        rewrite Hjc, Hn2; mred; reflexivity.
    + split; [reflexivity|].
      unfold filled_array. cbn [araw]. rewrite <- Hdata. unfold size_of.
      rewrite Nat2Z.id. apply firstn_all.
Qed.

End Composition.

(** ** Frame introspection, the bound and the cleanup helpers *)

Section Inspection.

Variable env : JNIEnv.
Variable zl : OpenZL.
Variable libc : Libc.
Variable cm : Z -> openzl_compressor_t.
Variable dm : Z -> openzl_decompressor_t.

(** X19. [getCompressionInfo] gives back the pinned input and the frame
    information on every path, does nothing after raising, and returns
    [null] whenever it raises. *)
Theorem getCompressionInfo_leaves_nothing_live (data : jarray) :
  balanced (events (get_compression_info env zl cm dm data))
  /\ throw_is_last (events (get_compression_info env zl cm dm data)) = true
  /\ (raised (events (get_compression_info env zl cm dm data)) <> [] ->
      value (get_compression_info env zl cm dm data) = None).
Proof.
  paths; unfold thrown; settle.
  all: split; [replay|].
  all: split; [reflexivity|].
  all: cbn [raised]; intro H; try reflexivity; exfalso; apply H; reflexivity.
Qed.

(** X20. The one silent [null] of [getCompressionInfo]: when the exception
    classes can be found, a [null] result without a raised exception means
    that constructing the [CompressionInfo] object returned [null]. *)
Theorem getCompressionInfo_silent_null_is_constructor (data : jarray) :
  FindClass env IllegalArgumentException <> NULL ->
  FindClass env OpenZLException <> NULL ->
  FindClass env OutOfMemoryError <> NULL ->
  value (get_compression_info env zl cm dm data) = None ->
  raised (events (get_compression_info env zl cm dm data)) = [] ->
  In (NewObjectCall NULL) (events (get_compression_info env zl cm dm data)).
Proof.
  intros Hiae Hzl Hoom. apply is_null_false in Hiae, Hzl, Hoom.
  paths; unfold thrown; rewrite ?Hiae, ?Hzl, ?Hoom; settle.
  all: cbn [raised]; intros Hv Hr; try discriminate Hr; try discriminate Hv.
  match goal with
  | H : is_null ?p = true |- context [NewObjectCall ?p] =>
      apply Z.eqb_eq in H; rewrite H
  end.
  member.
Qed.

(** X21. The sizes of a returned [CompressionInfo]: the compressed size is
    what [ZL_getCompressedSize] reports for the whole array, the original
    size what the frame information reports for output 0, both as Java
    longs, and neither query failed. *)
Theorem getCompressionInfo_sizes (data : jarray) (info : CompressionInfo) :
  value (get_compression_info env zl cm dm data) = Some info ->
  let n := to_size_t (alen data) in
  let frame_info := ZL_FrameInfo_create zl (araw data) n in
  ZL_isError (ZL_getCompressedSize zl (araw data) n) = false
  /\ ZL_isError (ZL_FrameInfo_getDecompressedSize zl frame_info 0) = false
  /\ ci_compressed_size info
     = to_jlong (ZL_validResult (ZL_getCompressedSize zl (araw data) n))
  /\ ci_decompressed_size info
     = to_jlong (ZL_validResult (ZL_FrameInfo_getDecompressedSize zl frame_info 0))
  /\ 0 < alen data.
Proof.
  paths; settle; intro H; try discriminate H.
  injection H as <-. cbn [ci_compressed_size ci_decompressed_size].
  repeat split; try assumption; try reflexivity.
  apply Z.leb_gt. assumption.
Qed.

(** X22. [compressBound] checks nothing: a negative length reaches the
    library as the length plus 2^64, and the library's bound comes back
    reduced to a Java int, which for a bound above [INT_MAX] differs from
    the bound. *)
Theorem compressBound_is_unchecked (src_len : Z) :
  (- 2 ^ 31 <= src_len < 0 ->
   Java_net_openzl_OpenZLJNI_compressBound zl src_len
   = to_jint (ZL_compressBound zl (src_len + 2 ^ 64)))
  /\ (0 <= src_len <= INT_MAX ->
      INT_MAX < ZL_compressBound zl src_len ->
      Java_net_openzl_OpenZLJNI_compressBound zl src_len <> ZL_compressBound zl src_len).
Proof.
  unfold Java_net_openzl_OpenZLJNI_compressBound. split.
  - intro H. f_equal. f_equal. unfold to_size_t, wrap_unsigned.
    change (2 ^ 31) with 2147483648 in H.
    change (2 ^ 64) with 18446744073709551616.
    rewrite <- (Z.mod_add src_len 1 18446744073709551616) by lia.
    apply Z.mod_small. lia.
  - intros H Hb. rewrite (to_size_t_small src_len) by exact H.
    intro Heq. unfold to_jint, wrap_signed, INT_MAX in *.
    change (2 ^ 31 - 1) with 2147483647 in *.
    change (2 ^ (32 - 1)) with 2147483648 in Heq.
    change (2 ^ 32) with 4294967296 in Heq.
    pose proof (Z.mod_pos_bound (ZL_compressBound zl src_len + 2147483648) 4294967296
                  ltac:(lia)).
    lia.
Qed.

(** X23. The cleanup helpers undo what they are given: after a pin of a
    non-null array and an allocation, whichever of the two succeeded,
    [cleanup_byte_array_and_buffer] and [cleanup_int_array_and_buffer]
    leave nothing live, and so does [cleanup_typed_ref] after the creation
    of a typed reference. *)
Theorem cleanup_helpers_undo_acquisition (array : jarray) (n ref : Z) :
  aref array <> NULL ->
  balanced (effects (pin_allocate_cleanup env libc cleanup_byte_array_and_buffer
                       jbyte array n) (start cm dm))
  /\ balanced (effects (pin_allocate_cleanup env libc cleanup_int_array_and_buffer
                          jint array n) (start cm dm))
  /\ balanced (effects (create_cleanup_typed_ref ref) (start cm dm)).
Proof.
  intro Href. apply is_null_false in Href.
  unfold effects, pin_allocate_cleanup, create_cleanup_typed_ref,
    cleanup_byte_array_and_buffer, cleanup_int_array_and_buffer,
    cleanup_array_and_buffer, cleanup_typed_ref.
  split; [|split].
  - mred. rewrite Href.
    destruct (is_null (GetArrayElements env jbyte (aref array))) eqn:Hp;
      destruct (is_null (malloc libc n)) eqn:Hm;
      cbn [negb andb]; mred; replay.
  - mred. rewrite Href.
    destruct (is_null (GetArrayElements env jint (aref array))) eqn:Hp;
      destruct (is_null (malloc libc n)) eqn:Hm;
      cbn [negb andb]; mred; replay.
  - mred. destruct (is_null ref) eqn:Hr; cbn [negb]; mred; replay.
Qed.

End Inspection.

(** ** Serial decompression and missing classes *)

Section More.

Variable env : JNIEnv.
Variable zl : OpenZL.
Variable libc : Libc.
Variable cm : Z -> openzl_compressor_t.
Variable dm : Z -> openzl_decompressor_t.

(** X24. When a serial decompress operation reaches the library: if the
    library reports the size [n], the operation raises nothing and returns
    [n], as the length of a new byte array that holds what the library
    wrote or as the integer result of the variant that fills a buffer; if
    the library reports the error code [c], the operation returns its
    sentinel and its log is a balanced prefix followed by the binding's
    exception with the library's text for [c]. *)
Theorem serial_decompress_outcome
    (op : operation) (id cap k : Z) (frame w : bytes) (r : ZL_Report) :
  decompress_request zl op = Some (cap, frame, k) ->
  existsb is_codec_call (trace (invoke env zl libc op id (start cm dm))) = true ->
  ZL_decompress zl cap frame k = (r, w) ->
  match r with
  | ZL_returnValue n =>
      0 <= n <= INT_MAX ->
      NewArray env jbyte n <> NULL ->
      raised (trace (invoke env zl libc op id (start cm dm))) = []
      /\ ret (invoke env zl libc op id (start cm dm))
         = (if is_to_buffer op then RInt n
            else RArray (Some (filled_array jbyte (NewArray env jbyte n) n w)))
  | ZL_returnError c =>
      ret (invoke env zl libc op id (start cm dm)) = sentinel op
      /\ exists pre,
           trace (invoke env zl libc op id (start cm dm))
           = pre ++ thrown env OpenZLException (ZL_ErrorCode_toString zl c)
           /\ balanced pre
  end.
Proof.
  intros Hreq Hreach Hnative.
  each_operation op; try discriminate Hreq;
    cbn [decompress_request] in Hreq; injection Hreq as <- <- <-.
  all: destruct r as [n|c].
  all: try (intros Hn Hnew;
            assert (Hjs : to_jsize n = n) by (apply to_jsize_small; exact Hn);
            assert (Hji : to_jint n = n) by (apply to_jint_small; exact Hn);
            apply is_null_false in Hnew).
  all: cbn [is_to_buffer]; revert Hreach; mred; paths; intro Hreach;
    try (unfold thrown in Hreach; revert Hreach; settle; intro Hreach;
         discriminate Hreach).
  all: try (rewrite ?Hji; split; reflexivity).
  all: split; [reflexivity|].
  all: match goal with
       | |- exists pre, ?l = _ /\ _ => let p := before_throw l in exists p
       end.
  all: split; [reflexivity|replay].
Qed.

(** X25. The binding raises only through classes it can find: when none
    of the three exception classes is found, no operation raises anything,
    and a zero handle gives the sentinel with an empty log. *)
Theorem missing_exception_classes_fail_silently (op : operation) (id : Z) :
  FindClass env IllegalArgumentException = NULL ->
  FindClass env OpenZLException = NULL ->
  FindClass env OutOfMemoryError = NULL ->
  raised (trace (invoke env zl libc op id (start cm dm))) = []
  /\ (id = 0 ->
      trace (invoke env zl libc op id (start cm dm)) = []
      /\ ret (invoke env zl libc op id (start cm dm)) = sentinel op).
Proof.
  intros Hiae Hzl Hoom. apply is_null_true in Hiae, Hzl, Hoom.
  split.
  - each_operation op; paths; unfold thrown; rewrite ?Hiae, ?Hzl, ?Hoom; reflexivity.
  - intros ->. each_operation op; paths; unfold thrown; rewrite ?Hiae, ?Hzl, ?Hoom;
      split; reflexivity.
Qed.

End More.

(** ** The further collaborators meet the assumptions *)

Lemma numeric_codec_store : numeric_codec zl_store 4.
Proof.
  intros ctx dctx cap data count n frame Hdata.
  cbn [zl_store toy_zl ZL_CCtx_compressTypedRef ZL_getDecompressedSize
       ZL_DCtx_decompressTyped].
  unfold store_compress, store_decompress. cbn [numeric_ref tr_data].
  destruct (size_of data <=? cap) eqn:Hcap; intro H; [|discriminate H].
  injection H as <- <-. apply Z.leb_le in Hcap.
  rewrite Z.leb_refl. cbn [fst snd].
  split; [reflexivity|]. split; [exact Hcap|]. split; [reflexivity|].
  rewrite Hdata, Z.div_mul by lia. reflexivity.
Qed.

Lemma respects_capacity_store : respects_capacity zl_store.
Proof.
  split.
  - intros ctx cap tr n w.
    cbn [zl_store toy_zl ZL_CCtx_compressTypedRef]. unfold store_compress.
    pose proof (size_of_nonneg (tr_data tr)) as Hs.
    destruct (size_of (tr_data tr) <=? cap) eqn:Hcap; intro H; [|discriminate H].
    injection H as <- <-. apply Z.leb_le in Hcap. lia.
  - intros cap src k n w.
    cbn [zl_store toy_zl ZL_decompress]. unfold store_decompress.
    pose proof (size_of_nonneg src) as Hs.
    destruct (size_of src <=? cap) eqn:Hcap; intro H; [|discriminate H].
    injection H as <- <-. apply Z.leb_le in Hcap. lia.
Qed.

(** ** The further properties at concrete inputs *)

(** X3 at a source that cannot be pinned. *)
Lemma null_result_witness :
  raised (trace (invoke env_pin1_fails zl_store libc_ok
                   (compress_serial (byte_array 1 hello) 0 5) (value a_compressor) ready))
  <> [].
Proof.
  apply (null_result_comes_with_exception env_pin1_fails zl_store libc_ok
           (compressors ready) (decompressors ready)
           (compress_serial (byte_array 1 hello) 0 5) (value a_compressor)).
  - vm_compute. discriminate.
  - vm_compute. discriminate.
  - reflexivity.
Defined.

(** X4 at a decompress into a buffer of twelve bytes. *)
Lemma to_buffer_witness :
  existsb is_malloc
    (trace (invoke env_ok zl_store libc_ok
              (decompress_serial_to_buffer (byte_array 1 hello) 0 5
                 (byte_array 2 three_ints) 0 12)
              (value a_decompressor) ready)) = false
  /\ existsb is_size_query
       (trace (invoke env_ok zl_store libc_ok
                 (decompress_serial_to_buffer (byte_array 1 hello) 0 5
                    (byte_array 2 three_ints) 0 12)
                 (value a_decompressor) ready)) = false.
Proof.
  apply (to_buffer_operations_never_allocate env_ok zl_store libc_ok
           (compressors ready) (decompressors ready)
           (decompress_serial_to_buffer (byte_array 1 hello) 0 5
              (byte_array 2 three_ints) 0 12)
           (value a_decompressor)).
  reflexivity.
Defined.

(** X5 at the handle of the decompressor and at a handle that was never
    given out. *)
Lemma serial_decompress_ignores_handle_witness :
  invoke env_ok zl_store libc_ok (decompress_serial (byte_array 1 hello) 0 5)
    (value a_decompressor) ready
  = invoke env_ok zl_store libc_ok (decompress_serial (byte_array 1 hello) 0 5)
      1 (start no_compressors no_decompressors).
Proof.
  apply (serial_decompress_ignores_handle env_ok zl_store libc_ok
           (compressors ready) no_compressors (decompressors ready) no_decompressors
           (decompress_serial (byte_array 1 hello) 0 5) (value a_decompressor) 1).
  - exact I.
  - vm_compute. discriminate.
  - discriminate.
Defined.

(** X6 at the store library. *)
Lemma createCompressor_success_witness :
  value a_compressor = 9728
  /\ track [] (events a_compressor) = Some [RObj KCompressor 32; RObj KCCtx 16; RBlock 9728]
  /\ raised (events a_compressor) = []
  /\ compressors (final a_compressor) 9728
     = {| c_ctx := 16; c_compressor := 32; c_graph_id := selected_graph 0 |}.
Proof.
  apply (createCompressor_success env_ok zl_store libc_ok no_compressors no_decompressors 0).
  - vm_compute. discriminate.
  - vm_compute. discriminate.
  - apply library_opens_store.
Defined.

(** X7 at the store library. *)
Lemma createCompressor_then_destroyCompressor_witness :
  events (run_after (Java_net_openzl_OpenZLJNI_destroyCompressor (value a_compressor))
            a_compressor)
  = [Destroy KCompressor 32; Destroy KCCtx 16; Free 9728]
  /\ balanced (events a_compressor
               ++ events (run_after (Java_net_openzl_OpenZLJNI_destroyCompressor
                                       (value a_compressor)) a_compressor)).
Proof.
  apply (createCompressor_then_destroyCompressor env_ok zl_store libc_ok
           no_compressors no_decompressors 0).
  - vm_compute. split; reflexivity.
  - vm_compute. discriminate.
  - apply library_opens_store.
Defined.

(** X8 at the store library, the freed record read as zeroes. *)
Lemma destroyCompressor_twice_witness :
  let closed :=
    run_after (Java_net_openzl_OpenZLJNI_destroyCompressor (value a_compressor))
      a_compressor in
  let again :=
    run (Java_net_openzl_OpenZLJNI_destroyCompressor (value a_compressor))
      (start no_compressors no_decompressors) in
  value a_compressor <> 0
  /\ balanced (events a_compressor ++ events closed)
  /\ (exists e rest, events again = e :: rest /\ released e <> None)
  /\ track [] (events a_compressor ++ events closed ++ events again) = None.
Proof.
  apply (destroyCompressor_twice_releases_dead_resource env_ok zl_store libc_ok
           no_compressors no_decompressors 0 no_compressors no_decompressors).
  - vm_compute. split; reflexivity.
  - vm_compute. discriminate.
  - apply library_opens_store.
Defined.

(** X9 when no memory is left. *)
Lemma createCompressor_early_failure_witness :
  let opened := open_compressor env_ok zl_store libc_exhausted
                  no_compressors no_decompressors 0 in
  value opened = 0
  /\ balanced (events opened)
  /\ existsb is_codec_or_config_call (events opened) = false
  /\ (malloc libc_exhausted (sizeof_openzl_compressor_t libc_exhausted) = NULL ->
      events opened
      = Malloc (sizeof_openzl_compressor_t libc_exhausted) NULL
          :: thrown env_ok OutOfMemoryError "Failed to allocate memory").
Proof.
  apply (createCompressor_early_failure env_ok zl_store libc_exhausted
           no_compressors no_decompressors 0).
  left. reflexivity.
Defined.

(** X11 at the store library. *)
Lemma createDecompressor_then_destroyDecompressor_witness :
  let opened := open_decompressor env_ok zl_store libc_ok no_compressors no_decompressors in
  let closed :=
    run_after (Java_net_openzl_OpenZLJNI_destroyDecompressor (value opened)) opened in
  events closed = [Destroy KDCtx 48; Free 8704]
  /\ balanced (events opened ++ events closed).
Proof.
  apply (createDecompressor_then_destroyDecompressor env_ok zl_store libc_ok
           no_compressors no_decompressors).
  - vm_compute. split; reflexivity.
  - vm_compute. discriminate.
Defined.

(** X12 at five bytes, which the store library keeps as they are. *)
Lemma compress_returns_reported_size_witness :
  raised (trace (invoke env_ok zl_store libc_ok (compress_serial (byte_array 1 hello) 0 5)
                   (value a_compressor) ready)) = []
  /\ ret (invoke env_ok zl_store libc_ok (compress_serial (byte_array 1 hello) 0 5)
            (value a_compressor) ready)
     = RArray (Some (byte_array 9000 hello)).
Proof.
  apply (compress_returns_reported_size env_ok zl_store libc_ok
           (compressors ready) (decompressors ready)
           (compress_serial (byte_array 1 hello) 0 5) (value a_compressor)
           69 5 (serial_ref hello 5) hello).
  - reflexivity.
  - reflexivity.
  - reflexivity.
  - vm_compute. split; discriminate.
  - vm_compute. discriminate.
Defined.

(** X13 at a destination of two bytes for five. *)
Lemma compress_failure_witness :
  ret (invoke env_ok zl_store libc_ok
         (compress_serial_to_buffer (byte_array 1 hello) 0 5 (byte_array 2 room) 0 2)
         (value a_compressor) ready)
  = RInt (-1)
  /\ exists pre,
       trace (invoke env_ok zl_store libc_ok
                (compress_serial_to_buffer (byte_array 1 hello) 0 5 (byte_array 2 room) 0 2)
                (value a_compressor) ready)
       = pre ++ thrown env_ok OpenZLException "Generic error"
       /\ balanced pre.
Proof.
  apply (compress_failure_carries_library_message env_ok zl_store libc_ok
           (compressors ready) (decompressors ready)
           (compress_serial_to_buffer (byte_array 1 hello) 0 5 (byte_array 2 room) 0 2)
           (value a_compressor) 2 1 (serial_ref hello 5) []).
  - reflexivity.
  - reflexivity.
  - reflexivity.
Defined.

(** X14 at the store library. *)
Lemma byte_results_witness :
  copies_within_blocks
    (trace (invoke env_ok zl_store libc_ok (decompress_serial (byte_array 1 hello) 0 5)
              (value a_decompressor) ready)) = true.
Proof.
  apply (byte_results_copied_within_scratch env_ok zl_store libc_ok
           (compressors ready) (decompressors ready)
           (decompress_serial (byte_array 1 hello) 0 5) (value a_decompressor)).
  - exact respects_capacity_store.
  - reflexivity.
Defined.

(** X15 at a frame of three 4-byte elements read as ints. *)
Lemma typed_decompress_witness :
  ret (invoke env_ok zl_store libc_ok (decompress_numeric I32 (byte_array 1 three_ints))
         (value a_decompressor) ready)
  = RArray (Some (typed_array 9000 3 three_ints))
  /\ copies_within_blocks
       (trace (invoke env_ok zl_store libc_ok
                 (decompress_numeric I32 (byte_array 1 three_ints))
                 (value a_decompressor) ready))
     = true.
Proof.
  apply (typed_decompress_result_and_copy env_ok zl_store libc_ok
           (compressors ready) (decompressors ready)
           I32 (byte_array 1 three_ints) (value a_decompressor) 12 12
           {| numElts := 3 |} three_ints).
  - vm_compute. discriminate.
  - vm_compute. discriminate.
  - reflexivity.
  - vm_compute. discriminate.
  - reflexivity.
  - vm_compute. discriminate.
Defined.

(** X16 at five bytes and a destination of 69. *)
Lemma compressSerialToBuffer_agrees_witness :
  exists a,
    ret (invoke env_ok zl_store libc_ok (compress_serial (byte_array 1 hello) 0 5)
           (value a_compressor) ready)
    = RArray (Some a)
    /\ ret (invoke env_ok zl_store libc_ok
              (compress_serial_to_buffer (byte_array 1 hello) 0 5 (byte_array 2 room) 0 69)
              (value a_compressor) ready)
       = RInt (alen a).
Proof.
  apply (compressSerialToBuffer_agrees_with_compressSerial env_ok zl_store libc_ok
           (compressors ready) (decompressors ready)
           (value a_compressor) (byte_array 1 hello) 0 5 (byte_array 2 room) 0 69 5 hello).
  - vm_compute. discriminate.
  - vm_compute. discriminate.
  - vm_compute. discriminate.
  - vm_compute. discriminate.
  - vm_compute. discriminate.
  - reflexivity.
  - reflexivity.
  - vm_compute. split; discriminate.
  - vm_compute. discriminate.
Defined.

(** X17 at a library that tells no size. *)
Lemma size_query_failure_witness :
  ret (invoke env_ok zl_size_unknown libc_ok (decompress_serial (byte_array 1 hello) 0 5)
         (value a_decompressor) ready) = RArray None
  /\ existsb is_malloc
       (trace (invoke env_ok zl_size_unknown libc_ok
                 (decompress_serial (byte_array 1 hello) 0 5)
                 (value a_decompressor) ready)) = false
  /\ exists pre,
       trace (invoke env_ok zl_size_unknown libc_ok
                (decompress_serial (byte_array 1 hello) 0 5)
                (value a_decompressor) ready)
       = pre ++ thrown env_ok OpenZLException "Generic error"
       /\ balanced pre.
Proof.
  apply (size_query_failure_allocates_nothing env_ok zl_size_unknown libc_ok
           (compressors ready) (decompressors ready)
           (decompress_serial (byte_array 1 hello) 0 5) (value a_decompressor)
           3 5 hello).
  - reflexivity.
  - vm_compute. discriminate.
  - vm_compute. discriminate.
  - reflexivity.
Defined.

(** X18 at three ints. *)
Lemma numeric_round_trip_witness :
  exists C,
    ret (invoke env_ok zl_store libc_ok (compress_numeric I32 (typed_array 1 3 three_ints))
           (value a_compressor) ready) = RArray (Some C)
    /\ exists D,
         ret (invoke env_ok zl_store libc_ok (decompress_numeric I32 C)
                (value a_decompressor) ready)
         = RArray (Some D)
         /\ alen D = 3
         /\ araw D = three_ints.
Proof.
  apply (numeric_round_trip env_ok zl_store libc_ok
           (compressors ready) (decompressors ready)
           I32 (value a_compressor) (value a_decompressor) 1 3 12 three_ints three_ints).
  - exact numeric_codec_store.
  - exact never_out_of_memory_ok.
  - intros d wd c. vm_compute. discriminate.
  - vm_compute. discriminate.
  - vm_compute. discriminate.
  - discriminate.
  - vm_compute. split; discriminate.
  - reflexivity.
  - vm_compute. discriminate.
  - reflexivity.
Defined.

(** X20 when the constructor returns no object. *)
Lemma getCompressionInfo_silent_null_witness :
  In (NewObjectCall NULL)
     (events (get_compression_info env_constructor_fails zl_store
                no_compressors no_decompressors (byte_array 1 three_ints))).
Proof.
  apply (getCompressionInfo_silent_null_is_constructor env_constructor_fails zl_store
           no_compressors no_decompressors (byte_array 1 three_ints)).
  - vm_compute. discriminate.
  - vm_compute. discriminate.
  - vm_compute. discriminate.
  - reflexivity.
  - reflexivity.
Defined.

(** X21 at a frame of twelve bytes of the store library. *)
Lemma getCompressionInfo_sizes_witness :
  ZL_isError (ZL_getCompressedSize zl_store three_ints 12) = false
  /\ ZL_isError (ZL_FrameInfo_getDecompressedSize zl_store 96 0) = false
  /\ ci_compressed_size numeric_info = 12
  /\ ci_decompressed_size numeric_info = 8
  /\ 0 < alen (byte_array 1 three_ints).
Proof.
  apply (getCompressionInfo_sizes env_ok zl_store no_compressors no_decompressors
           (byte_array 1 three_ints) numeric_info).
  reflexivity.
Defined.

(** X23 at an array of five bytes and a block of sixteen. *)
Lemma cleanup_helpers_witness :
  balanced (effects (pin_allocate_cleanup env_ok libc_ok cleanup_byte_array_and_buffer
                       jbyte (byte_array 1 hello) 16)
              (start no_compressors no_decompressors))
  /\ balanced (effects (pin_allocate_cleanup env_ok libc_ok cleanup_int_array_and_buffer
                          jint (byte_array 1 hello) 16)
                 (start no_compressors no_decompressors))
  /\ balanced (effects (create_cleanup_typed_ref 64)
                 (start no_compressors no_decompressors)).
Proof.
  apply (cleanup_helpers_undo_acquisition env_ok libc_ok no_compressors no_decompressors
           (byte_array 1 hello) 16 64).
  vm_compute. discriminate.
Defined.

(** X24 at a frame of five bytes of the store library. *)
Lemma serial_decompress_outcome_witness :
  raised (trace (invoke env_ok zl_store libc_ok (decompress_serial (byte_array 1 hello) 0 5)
                   (value a_decompressor) ready)) = []
  /\ ret (invoke env_ok zl_store libc_ok (decompress_serial (byte_array 1 hello) 0 5)
            (value a_decompressor) ready)
     = RArray (Some (byte_array 9000 hello)).
Proof.
  assert (Hn : 0 <= 5 <= INT_MAX) by (vm_compute; split; discriminate).
  assert (Hnew : NewArray env_ok jbyte 5 <> NULL) by (vm_compute; discriminate).
  exact (serial_decompress_outcome env_ok zl_store libc_ok
           (compressors ready) (decompressors ready)
           (decompress_serial (byte_array 1 hello) 0 5) (value a_decompressor)
           5 5 hello hello (ZL_returnValue 5) eq_refl eq_refl eq_refl Hn Hnew).
Defined.

(** X25 at a runtime without the exception classes. *)
Lemma missing_exception_classes_witness :
  raised (trace (invoke env_no_classes zl_store libc_ok
                   (compress_serial (byte_array 1 hello) 0 5) 0 ready)) = []
  /\ (0 = 0 ->
      trace (invoke env_no_classes zl_store libc_ok
               (compress_serial (byte_array 1 hello) 0 5) 0 ready) = []
      /\ ret (invoke env_no_classes zl_store libc_ok
                (compress_serial (byte_array 1 hello) 0 5) 0 ready)
         = sentinel (compress_serial (byte_array 1 hello) 0 5)).
Proof.
  apply (missing_exception_classes_fail_silently env_no_classes zl_store libc_ok
           (compressors ready) (decompressors ready)
           (compress_serial (byte_array 1 hello) 0 5) 0).
  - reflexivity.
  - reflexivity.
  - reflexivity.
Defined.
